(** * dipwrapper: the DIP client and its pagination loop

    A shallow embedding of [dipwrapper.py] (class [DIP]) and the
    properties of its validators, extractors, single fetch and the two
    paginating generators.

    Python objects are modelled by the values a JSON document decodes to
    ([pyval]) and by ElementTree elements ([Element]); dictionaries keep
    their insertion order; the client object and the log of HTTP requests
    issued so far form the state every method runs in; exceptions are an
    explicit result.  The HTTP library and the two parsers are external
    collaborators, taken as the fields of [Collaborators]. *)

From Stdlib Require Import String Ascii List ZArith Bool Lia.
Import ListNotations.
Set Warnings "-register-all".
Local Open Scope list_scope.
Local Open Scope string_scope.

(* ===================================================================== *)
(** ** Python values *)
(* ===================================================================== *)

(** What [json] decodes to, floats apart: [None], booleans, integers,
    strings, lists and string-keyed dictionaries (in insertion order). *)
Inductive pyval : Type :=
| PNone
| PBool (b : bool)
| PInt (n : Z)
| PStr (s : string)
| PList (items : list pyval)
| PDict (entries : list (string * pyval)).

(** A dictionary with string keys, in insertion order. *)
Definition dict (V : Type) : Type := list (string * V).

Section Dict.
Context {V : Type}.

(** [d[k]] when present. *)
Fixpoint dict_lookup (k : string) (d : dict V) : option V :=
  match d with
  | [] => None
  | (k', v) :: rest => if String.eqb k k' then Some v else dict_lookup k rest
  end.

(** [d[k] = v]: an existing key keeps its position, a new one is appended. *)
Fixpoint dict_set (k : string) (v : V) (d : dict V) : dict V :=
  match d with
  | [] => [(k, v)]
  | (k', v') :: rest =>
      if String.eqb k k' then (k', v) :: rest else (k', v') :: dict_set k v rest
  end.

(** [d.update(other)]. *)
Definition dict_update (d other : dict V) : dict V :=
  fold_left (fun acc kv => dict_set (fst kv) (snd kv) acc) other d.

(** Iterating a dictionary yields its keys in order. *)
Definition dict_keys (d : dict V) : list string := map fst d.
End Dict.

(** [d.get(k)]: the value, [None] when the key is absent. *)
Definition py_get (d : dict pyval) (k : string) : pyval :=
  match dict_lookup k d with
  | Some v => v
  | None => PNone
  end.

(** Python's [==] on these values: structural, with [bool] a subtype of
    [int] and dictionaries compared regardless of order. *)
Fixpoint py_eq (a b : pyval) {struct a} : bool :=
  match a, b with
  | PNone, PNone => true
  | PBool x, PBool y => Bool.eqb x y
  | PBool x, PInt y => Z.eqb (Z.b2z x) y
  | PInt x, PBool y => Z.eqb x (Z.b2z y)
  | PInt x, PInt y => Z.eqb x y
  | PStr x, PStr y => String.eqb x y
  | PList xs, PList ys =>
      (fix items_eq (xs ys : list pyval) {struct xs} : bool :=
         match xs, ys with
         | [], [] => true
         | x :: xs', y :: ys' => py_eq x y && items_eq xs' ys'
         | _, _ => false
         end) xs ys
  | PDict xs, PDict ys =>
      Nat.eqb (List.length xs) (List.length ys) &&
      (fix entries_in (xs : list (string * pyval)) {struct xs} : bool :=
         match xs with
         | [] => true
         | (k, v) :: xs' =>
             (fix found (ys : list (string * pyval)) {struct ys} : bool :=
                match ys with
                | [] => false
                | (k', w) :: ys' => if String.eqb k k' then py_eq v w else found ys'
                end) ys
             && entries_in xs'
         end) xs
  | _, _ => false
  end.

(** Python's [!=]. *)
Definition py_ne (a b : pyval) : bool := negb (py_eq a b).

(** [x in l] for a list of strings. *)
Definition str_in (x : string) (l : list string) : bool :=
  existsb (String.eqb x) l.

(** [repr] of a list of plain strings (no quotes or escapes in them), as an
    f-string prints the class constants. *)
Definition repr_str (s : string) : string := "'" ++ s ++ "'".

Definition repr_str_list (l : list string) : string :=
  "[" ++ String.concat ", " (map repr_str l) ++ "]".

(* ===================================================================== *)
(** ** ElementTree elements *)
(* ===================================================================== *)

Inductive Element : Type :=
| mkElement (tag : string) (attrib : dict string) (text : option string)
            (children : list Element).

Definition tag (e : Element) : string :=
  match e with mkElement t _ _ _ => t end.
Definition attrib (e : Element) : dict string :=
  match e with mkElement _ a _ _ => a end.
Definition text (e : Element) : option string :=
  match e with mkElement _ _ t _ => t end.
Definition children (e : Element) : list Element :=
  match e with mkElement _ _ _ c => c end.

(** [e.find(name)]: the first direct child with that tag. *)
Definition find (name : string) (e : Element) : option Element :=
  List.find (fun c => String.eqb (tag c) name) (children e).

(** [e.findall(name)]: the direct children with that tag, in order. *)
Definition findall (name : string) (e : Element) : list Element :=
  List.filter (fun c => String.eqb (tag c) name) (children e).

(** [e.get(key)]: an attribute of the element, [None] when absent. *)
Definition element_get (key : string) (e : Element) : pyval :=
  match dict_lookup key (attrib e) with
  | Some s => PStr s
  | None => PNone
  end.

Definition text_value (t : option string) : pyval :=
  match t with
  | Some s => PStr s
  | None => PNone
  end.

(** An object a method receives as [response]: a decoded JSON value or an
    element tree. *)
Inductive pyobj : Type :=
| Val (v : pyval)
| Elem (e : Element).

(** What [_extract_documents] hands to the caller. *)
Inductive page : Type :=
| PageVal (v : pyval)
| PageElems (es : list Element).

(* ===================================================================== *)
(** ** Exceptions, the HTTP collaborator, the state *)
(* ===================================================================== *)

Inductive exn : Type :=
| ValueError (msg : string)        (* raised by the two validators *)
| TypeError                        (* a call with the wrong number of arguments *)
| AttributeError                   (* attribute lookup on an object without it *)
| RequestException (e : string)    (* requests.get: connection failure, timeout *)
| HTTPError (e : string)           (* raise_for_status *)
| JSONDecodeError (e : string)     (* response.json() *)
| ParseError (e : string).         (* ET.fromstring *)

(** The spec's error classes. *)
Definition is_InvalidArgument (e : exn) : bool :=
  match e with ValueError _ => true | _ => false end.
Definition is_TransportError (e : exn) : bool :=
  match e with RequestException _ | HTTPError _ => true | _ => false end.
Definition is_DecodeError (e : exn) : bool :=
  match e with JSONDecodeError _ | ParseError _ => true | _ => false end.
Definition is_LookupError (e : exn) : bool :=
  match e with AttributeError => true | _ => false end.

Record Request : Type := mkRequest {
  req_url : string;
  req_params : dict pyval;
  req_timeout : Z
}.

Record Response : Type := mkResponse {
  status_code : Z;
  content : string
}.

(** The libraries the client delegates to.  [requests_get] answers a GET
    given the requests issued before it: a network failure or a response;
    [raise_for_status] reports the statuses the HTTP library takes for
    errors; the two parsers fail on malformed input. *)
Class Collaborators : Type := {
  requests_get : list Request -> Request -> string + Response;
  raise_for_status : Response -> option string;
  response_json : Response -> string + pyval;
  ET_fromstring : string -> string + Element
}.

(** The client object: [self.apikey], [self.fformat]. *)
Record DIP : Type := mkDIP {
  apikey : string;
  fformat : string
}.

(** The state: the client object and the requests issued so far, oldest
    first. *)
Record World : Type := mkWorld {
  self : DIP;
  sent : list Request
}.

(** Computations that read and write the state and may raise. *)
Definition M (A : Type) : Type := World -> (exn + A) * World.

Definition ret {A} (a : A) : M A := fun w => (inr a, w).
Definition raise {A} (e : exn) : M A := fun w => (inl e, w).
Definition bind {A B} (m : M A) (k : A -> M B) : M B :=
  fun w =>
    match m w with
    | (inr a, w') => k a w'
    | (inl e, w') => (inl e, w')
    end.
Definition get_self : M DIP := fun w => (inr (self w), w).

Declare Scope py_scope.
Delimit Scope py_scope with py.
Notation "x <- m ;; k" := (bind m (fun x => k))
  (at level 61, m at next level, right associativity) : py_scope.
Notation "m ;; k" := (bind m (fun _ => k))
  (at level 61, right associativity) : py_scope.
Local Open Scope py_scope.

(* ===================================================================== *)
(** ** class DIP *)
(* ===================================================================== *)

Definition base_url : string := "https://search.dip.bundestag.de/api/v1".

(** Two adjacent string literals with no comma between them are one
    literal: the list has seven entries. *)
Definition doctypes : list string :=
  ["aktivitaet"; "drucksache"; "drucksache-text";
   "person"; "plenarprotokoll"; "plenarprotokoll-text" ++
   "vorgang"; "vorgangsposition"].

Definition fformats : list string := ["xml"; "json"].

Definition parameters : list string :=
  ["cursor"; "format"; "f.id"; "f.datum.start"; "f.datum.end";
   "f.drucksache"; "f.plenarprotokoll"; "f.vorgang";
   "f.aktivitaet"; "f.zuordnung"].

(** [DIP(apikey, fformat='json')]. *)
Definition __init__ (apikey : string) (fformat : option string) : DIP :=
  {| apikey := apikey;
     fformat := match fformat with Some f => f | None => "json" end |}.

Definition _validate_resource_type (resource : string) : M unit :=
  if negb (str_in resource doctypes) then
    raise (ValueError ("Invalid doctype '" ++ resource ++ "'. " ++
                       "Expected one of: " ++ repr_str_list doctypes))
  else ret tt.

(** The [for key in parameters] loop of [_validate_parameter_types]. *)
Fixpoint validate_keys (keys : list string) : M unit :=
  match keys with
  | [] => ret tt
  | key :: rest =>
      if negb (str_in key parameters) then
        raise (ValueError ("Invalid doctype '" ++ key ++ "'. " ++
                           "Expected one of: " ++ repr_str_list parameters))
      else validate_keys rest
  end.

Definition _validate_parameter_types (params_arg : dict pyval) : M unit :=
  validate_keys (dict_keys params_arg).

(** [response.get(key)] on whatever [response] is: a dictionary lookup, an
    element's attribute, or no such method. *)
Definition obj_get (response : pyobj) (key : string) : M pyval :=
  match response with
  | Val (PDict d) => ret (py_get d key)
  | Val _ => raise AttributeError
  | Elem e => ret (element_get key e)
  end.

(** [response.findall(name)]: only elements have it. *)
Definition obj_findall (response : pyobj) (name : string) : M (list Element) :=
  match response with
  | Elem e => ret (findall name e)
  | Val _ => raise AttributeError
  end.

(** [response.find(name).text]: [find] is [None] when no child has the
    tag, and [None] has no [text]; of the values only a string has a
    [find], and what it returns (an integer) has no [text] either. *)
Definition obj_find_text (response : pyobj) (name : string) : M pyval :=
  match response with
  | Elem e =>
      match find name e with
      | Some c => ret (text_value (text c))
      | None => raise AttributeError
      end
  | Val _ => raise AttributeError
  end.

Definition _extract_documents (response : pyobj) : M page :=
  me <- get_self ;;
  if String.eqb (fformat me) "json" then
    v <- obj_get response "documents" ;; ret (PageVal v)
  else
    es <- obj_findall response "document" ;; ret (PageElems es).

Definition _extract_cursor (response : pyobj) : M pyval :=
  me <- get_self ;;
  if String.eqb (fformat me) "json" then
    obj_get response "cursor"
  else
    obj_find_text response "cursor".

(** Calling a method of one required argument with the positional
    arguments [args]. *)
Definition call1 {A} (f : pyobj -> M A) (args : list pyobj) : M A :=
  match args with
  | [a] => f a
  | _ => raise TypeError
  end.

Section Client.
Context {ext : Collaborators}.

(** [requests.get(url, params=params, timeout=timeout)]. *)
Definition http_get (url : string) (params : dict pyval) (timeout : Z)
  : M Response :=
  fun w =>
    let rq := {| req_url := url; req_params := params;
                 req_timeout := timeout |} in
    let w' := {| self := self w; sent := (sent w ++ [rq])%list |} in
    match requests_get (sent w) rq with
    | inl e => (inl (RequestException e), w')
    | inr r => (inr r, w')
    end.

(** [response.raise_for_status()]. *)
Definition check_status (r : Response) : M unit :=
  match raise_for_status r with
  | Some e => raise (HTTPError e)
  | None => ret tt
  end.

Definition _get_and_handle_response (url : string) (params : dict pyval)
  : M pyobj :=
  response <- http_get url params 5 ;;
  check_status response ;;
  me <- get_self ;;
  if String.eqb (fformat me) "json" then
    match response_json response with
    | inl e => raise (JSONDecodeError e)
    | inr v => ret (Val v)
    end
  else
    match ET_fromstring (content response) with
    | inl e => raise (ParseError e)
    | inr t => ret (Elem t)
    end.

(** [{'format': self.fformat, 'apikey': self.apikey}]. *)
Definition initial_params (me : DIP) : dict pyval :=
  [("format", PStr (fformat me)); ("apikey", PStr (apikey me))].

Definition get_resource_id (res_type dpi_id : string) : M pyobj :=
  _validate_resource_type res_type ;;
  me <- get_self ;;
  let url := base_url ++ "/" ++ res_type ++ "/" ++ dpi_id in
  let params := initial_params me in
  response <- _get_and_handle_response url params ;;
  ret response.

(** A generator object of [get_resource_all] or [get_resource_multiple]:
    created and not yet run, suspended at its [yield] with its locals,
    or finished. *)
Inductive generator : Type :=
| AllCreated (res_type : string)
| AllSuspended (url : string) (params : dict pyval)
| MultipleCreated (res_type : string) (params_arg : dict pyval)
| MultipleSuspended (url : string) (params : dict pyval)
| Closed.

(** Calling a generator function runs none of its body. *)
Definition get_resource_all (res_type : string) : generator :=
  AllCreated res_type.
Definition get_resource_multiple (res_type : string)
  (params_arg : dict pyval) : generator :=
  MultipleCreated res_type params_arg.

(** One turn of the [while True] loop of [get_resource_all], up to the
    [yield] or the [break]: the page and the suspended generator, or no
    page and the finished one. *)
Definition all_loop (url : string) (params : dict pyval)
  : M (option page * generator) :=
  response <- _get_and_handle_response url params ;;
  cursor <- call1 _extract_cursor [] ;;
  if py_ne (py_get params "cursor") cursor then
    let params := dict_set "cursor" cursor params in
    docs <- _extract_documents response ;;
    ret (Some docs, AllSuspended url params)
  else ret (None, Closed).

(** The same for [get_resource_multiple]. *)
Definition multiple_loop (url : string) (params : dict pyval)
  : M (option page * generator) :=
  response <- _get_and_handle_response url params ;;
  cursor <- call1 _extract_cursor [response] ;;
  if py_ne (py_get params "cursor") cursor then
    let params := dict_set "cursor" cursor params in
    docs <- _extract_documents response ;;
    ret (Some docs, MultipleSuspended url params)
  else ret (None, Closed).

(** The body of a generator from where it stands to its next [yield]
    ([Some page]) or its end ([None]). *)
Definition resume (g : generator) : M (option page * generator) :=
  match g with
  | AllCreated res_type =>
      _validate_resource_type res_type ;;
      me <- get_self ;;
      let url := base_url ++ "/" ++ res_type in
      let params := initial_params me in
      all_loop url params
  | AllSuspended url params => all_loop url params
  | MultipleCreated res_type params_arg =>
      _validate_resource_type res_type ;;
      me <- get_self ;;
      let url := base_url ++ "/" ++ res_type in
      let params := initial_params me in
      let params := dict_update params params_arg in
      _validate_parameter_types params_arg ;;
      multiple_loop url params
  | MultipleSuspended url params => multiple_loop url params
  | Closed => ret (None, Closed)
  end.

(** What [next(g)] gives the caller. *)
Inductive outcome : Type :=
| Yield (p : page)
| StopIteration
| Raise (e : exn).

(** [next(g)]: a generator that raised or returned is finished. *)
Definition next (g : generator) (w : World) : outcome * generator * World :=
  match resume g w with
  | (inr (Some p, g'), w') => (Yield p, g', w')
  | (inr (None, _), w') => (StopIteration, Closed, w')
  | (inl e, w') => (Raise e, Closed, w')
  end.

(** How a [for] loop over a generator ends. *)
Inductive ending : Type :=
| Exhausted
| Failed (e : exn)
| Unfinished.

(** [for page in g] for at most [fuel] calls of [next]: the pages
    yielded, how the loop ended, and the state it left. *)
Fixpoint drain (fuel : nat) (g : generator) (w : World)
  : list page * ending * World :=
  match fuel with
  | O => ([], Unfinished, w)
  | S fuel' =>
      match next g w with
      | (Yield p, g', w') =>
          match drain fuel' g' w' with
          | (ps, e, w'') => (p :: ps, e, w'')
          end
      | (StopIteration, _, w') => ([], Exhausted, w')
      | (Raise e, _, w') => ([], Failed e, w')
      end
  end.
End Client.

(* ===================================================================== *)
(** ** A scripted server, for concrete runs *)
(* ===================================================================== *)

(** Answers the n-th request with the n-th entry of a script and fails to
    connect once the script is over; takes the statuses from 400 to 599
    for errors; parses a body by looking it up in a table. *)
Definition scripted_get (script : list (string + Response))
  (before : list Request) (rq : Request) : string + Response :=
  nth (List.length before) script (inl "connection refused").

Definition status_error (r : Response) : option string :=
  if ((400 <=? status_code r) && (status_code r <? 600))%Z
  then Some "error status" else None.

Definition table_parse {A} (table : dict A) (body : string) : string + A :=
  match dict_lookup body table with
  | Some a => inr a
  | None => inl "malformed"
  end.

Definition scripted (script : list (string + Response))
  (json_table : dict pyval) (xml_table : dict Element) : Collaborators :=
  {| requests_get := scripted_get script;
     raise_for_status := status_error;
     response_json := fun r => table_parse json_table (content r);
     ET_fromstring := table_parse xml_table |}.

(** JSON bodies: two regular pages, with cursors X and Y, and a page that
    has documents and no cursor. *)
Definition page_X : pyval :=
  PDict [("documents", PList [PDict [("id", PStr "1")]]); ("cursor", PStr "X")].
Definition page_no_cursor : pyval :=
  PDict [("documents", PList [PDict [("id", PStr "7")]])].
Definition page_Y : pyval :=
  PDict [("documents", PList [PDict [("id", PStr "2")]]); ("cursor", PStr "Y")].
Definition json_bodies : dict pyval :=
  [("body X", page_X); ("body Y", page_Y);
   ("body without cursor", page_no_cursor)].

(** Two XML bodies: with and without a cursor element. *)
Definition doc_element : Element := mkElement "document" [] None [].
Definition tree_X : Element :=
  mkElement "root" [] None
    [doc_element; doc_element; mkElement "cursor" [] (Some "X") []].
Definition tree_no_cursor : Element :=
  mkElement "root" [] None [doc_element].
Definition xml_bodies : dict Element :=
  [("tree X", tree_X); ("tree without cursor", tree_no_cursor)].

Definition ok (body : string) : string + Response :=
  inr {| status_code := 200; content := body |}.

Definition json_client : DIP := __init__ "key" None.
Definition xml_client : DIP := __init__ "key" (Some "xml").

Definition fresh (me : DIP) : World := {| self := me; sent := [] |}.

(** The state after running a computation, and its result. *)
Definition result_of {A} (r : (exn + A) * World) : exn + A := fst r.
Definition world_of {A} (r : (exn + A) * World) : World := snd r.

(** The state after one GET to [url] with [params]. *)
Definition logged (url : string) (params : dict pyval) (w : World) : World :=
  {| self := self w;
     sent := (sent w ++ [{| req_url := url; req_params := params;
                            req_timeout := 5 |}])%list |}.

(** A computation that leaves the client object as it found it. *)
Definition keeps_self {A} (m : M A) : Prop :=
  forall w, self (world_of (m w)) = self w.

(** The errors of the two validators, and the key the loop of
    [_validate_parameter_types] stops at: the first one outside the
    allow-list. *)
Definition doctype_error (resource : string) : exn :=
  ValueError ("Invalid doctype '" ++ resource ++ "'. " ++
              "Expected one of: " ++ repr_str_list doctypes).

Definition parameter_error (key : string) : exn :=
  ValueError ("Invalid doctype '" ++ key ++ "'. " ++
              "Expected one of: " ++ repr_str_list parameters).

Fixpoint first_invalid (keys : list string) : option string :=
  match keys with
  | [] => None
  | k :: rest => if str_in k parameters then first_invalid rest else Some k
  end.

(** A decoded JSON value that is an object. *)
Definition is_object (v : pyval) : bool :=
  match v with
  | PDict _ => true
  | _ => false
  end.

(** What every request of one pagination has in common: the url, the
    timeout, and every parameter but the cursor. *)
Definition same_query (url : string) (params : dict pyval) (rq : Request)
  : Prop :=
  req_url rq = url /\ req_timeout rq = 5%Z /\
  forall k, k <> "cursor" ->
            dict_lookup k (req_params rq) = dict_lookup k params.

(** How many requests a loop that ended this way sent beyond one per page:
    the turn that ends a loop has its request and no page. *)
Definition closing_requests (e : ending) : nat :=
  match e with
  | Unfinished => 0
  | Exhausted | Failed _ => 1
  end.

(** A server that never repeats a cursor: the body it answers with is the
    cursor it was sent and one more character, and a body decodes to an
    empty page whose cursor is the body. *)
Definition restless : Collaborators :=
  {| requests_get := fun _ rq =>
       inr {| status_code := 200;
              content := match py_get (req_params rq) "cursor" with
                         | PStr s => s ++ "x"
                         | _ => "x"
                         end |};
     raise_for_status := fun _ => None;
     response_json := fun r =>
       inr (PDict [("documents", PList []); ("cursor", PStr (content r))]);
     ET_fromstring := fun _ => inl "malformed" |}.

Arguments str_in : simpl never.

(* ===================================================================== *)
(** ** Strings, dictionaries, the monad *)
(* ===================================================================== *)

Lemma str_in_In (x : string) (l : list string) :
  str_in x l = true <-> In x l.
Proof.
  unfold str_in. rewrite existsb_exists. split.
  - intros [y [Hy Heq]]. apply String.eqb_eq in Heq. now subst.
  - intros H. exists x. split; [assumption | apply String.eqb_refl].
Qed.

Lemma str_in_not_In (x : string) (l : list string) :
  str_in x l = false <-> ~ In x l.
Proof.
  rewrite <- str_in_In. destruct (str_in x l); split; congruence.
Qed.

Section DictFacts.
Context {V : Type}.
Implicit Types (d : dict V) (k : string) (v : V).

Lemma dict_lookup_set k k' v d :
  dict_lookup k (dict_set k' v d) =
  if String.eqb k k' then Some v else dict_lookup k d.
Proof.
  induction d as [| [k0 v0] rest IH]; simpl.
  - destruct (String.eqb k k'); reflexivity.
  - destruct (String.eqb_spec k' k0) as [-> | Hne]; simpl.
    + destruct (String.eqb k k0); reflexivity.
    + rewrite IH. destruct (String.eqb_spec k k0) as [-> | Hne'].
      * destruct (String.eqb_spec k0 k'); [congruence | reflexivity].
      * reflexivity.
Qed.

Lemma dict_lookup_set_same k v d : dict_lookup k (dict_set k v d) = Some v.
Proof. rewrite dict_lookup_set, String.eqb_refl. reflexivity. Qed.

Lemma dict_lookup_update_absent k d other :
  dict_lookup k other = None ->
  dict_lookup k (dict_update d other) = dict_lookup k d.
Proof.
  unfold dict_update. revert d.
  induction other as [| [k0 v0] rest IH]; intros d Habs; simpl in *.
  - reflexivity.
  - destruct (String.eqb_spec k k0) as [-> | Hne]; [discriminate |].
    rewrite (IH _ Habs), dict_lookup_set.
    destruct (String.eqb_spec k k0); [congruence | reflexivity].
Qed.
End DictFacts.

Lemma py_get_set_same (k : string) (v : pyval) (d : dict pyval) :
  py_get (dict_set k v d) k = v.
Proof. unfold py_get. now rewrite dict_lookup_set_same. Qed.

Lemma bind_ok {A B} (m : M A) (k : A -> M B) (w w' : World) (a : A) :
  m w = (inr a, w') -> bind m k w = k a w'.
Proof. unfold bind. now intros ->. Qed.

Lemma bind_raise {A B} (m : M A) (k : A -> M B) (w w' : World) (e : exn) :
  m w = (inl e, w') -> bind m k w = (inl e, w').
Proof. unfold bind. now intros ->. Qed.

(* ===================================================================== *)
(** ** The validators *)
(* ===================================================================== *)

Lemma validate_resource_type_ok (resource : string) (w : World) :
  In resource doctypes -> _validate_resource_type resource w = (inr tt, w).
Proof.
  intros Hin. apply str_in_In in Hin.
  unfold _validate_resource_type. now rewrite Hin.
Qed.

Lemma validate_resource_type_raises (resource : string) (w : World) :
  ~ In resource doctypes ->
  _validate_resource_type resource w = (inl (doctype_error resource), w).
Proof.
  intros Hout. apply str_in_not_In in Hout.
  unfold _validate_resource_type. now rewrite Hout.
Qed.

Example doctypes_printed :
  repr_str_list doctypes =
  "['aktivitaet', 'drucksache', 'drucksache-text', 'person', 'plenarprotokoll', 'plenarprotokoll-textvorgang', 'vorgangsposition']".
Proof. reflexivity. Qed.

(** C2 (the code departs from it).  The claim wants the procedure category
    and the plenary-protocol-text category accepted.  The list of the code
    lacks a comma between these two literals, so its sixth entry is their
    concatenation: both tokens raise [ValueError], in every state, and the
    concatenated token is the one accepted. *)
Theorem validate_resource_type_vorgang_rejected :
  forall w : World,
    _validate_resource_type "vorgang" w = (inl (doctype_error "vorgang"), w) /\
    _validate_resource_type "plenarprotokoll-text" w =
      (inl (doctype_error "plenarprotokoll-text"), w) /\
    _validate_resource_type "plenarprotokoll-textvorgang" w = (inr tt, w) /\
    List.length doctypes = 7%nat.
Proof.
  intros w. repeat split.
Qed.

Lemma validate_keys_ok (keys : list string) (w : World) :
  Forall (fun k => In k parameters) keys -> validate_keys keys w = (inr tt, w).
Proof.
  induction 1 as [| k rest Hk _ IH]; simpl.
  - reflexivity.
  - apply str_in_In in Hk. now rewrite Hk.
Qed.

Lemma first_invalid_exists (keys : list string) :
  Exists (fun k => ~ In k parameters) keys ->
  exists k, first_invalid keys = Some k /\ In k keys /\ ~ In k parameters.
Proof.
  induction keys as [| k rest IH]; intros Hex.
  - inversion Hex.
  - simpl. destruct (str_in k parameters) eqn:Hk.
    + apply str_in_In in Hk.
      inversion Hex as [? ? Hbad | ? ? Hrest]; subst; [contradiction |].
      destruct (IH Hrest) as [k' [Hf [Hin Hbad]]].
      exists k'. repeat split; [assumption | now right | assumption].
    + apply str_in_not_In in Hk. exists k. repeat split; [now left | assumption].
Qed.

Lemma validate_keys_raises (keys : list string) (k : string) (w : World) :
  first_invalid keys = Some k ->
  validate_keys keys w = (inl (parameter_error k), w).
Proof.
  induction keys as [| k0 rest IH]; simpl; [discriminate |].
  destruct (str_in k0 parameters); simpl.
  - exact IH.
  - intros [= ->]. reflexivity.
Qed.

(** C7.  [_validate_parameter_types] returns without error, leaving the
    state as it was, for every map whose keys are all in the allow-list,
    and raises [ValueError] (naming the first key outside it) for every
    map with a key outside it.  It takes no resource type: whatever valid
    resource type [get_resource_multiple] is given, every map of allowed
    keys passes and the generator goes on to its fetch loop. *)
Theorem validate_parameter_types_by_name_only :
  (forall (params_arg : dict pyval) (w : World),
      Forall (fun k => In k parameters) (dict_keys params_arg) ->
      _validate_parameter_types params_arg w = (inr tt, w)) /\
  (forall (params_arg : dict pyval) (w : World),
      Exists (fun k => ~ In k parameters) (dict_keys params_arg) ->
      exists key,
        In key (dict_keys params_arg) /\ ~ In key parameters /\
        _validate_parameter_types params_arg w = (inl (parameter_error key), w) /\
        is_InvalidArgument (parameter_error key) = true) /\
  (forall (ext : Collaborators) (res_type : string) (params_arg : dict pyval)
          (w : World),
      In res_type doctypes ->
      Forall (fun k => In k parameters) (dict_keys params_arg) ->
      resume (get_resource_multiple res_type params_arg) w =
      multiple_loop (base_url ++ "/" ++ res_type)
                    (dict_update (initial_params (self w)) params_arg) w).
Proof.
  split; [| split].
  - intros params_arg w Hall. now apply validate_keys_ok.
  - intros params_arg w Hex.
    destruct (first_invalid_exists _ Hex) as [key [Hfirst [Hin Hbad]]].
    exists key. repeat split; try assumption.
    now apply validate_keys_raises.
  - intros ext res_type params_arg w Hres Hall.
    unfold get_resource_multiple, resume.
    rewrite (bind_ok _ _ w w tt (validate_resource_type_ok _ _ Hres)).
    unfold bind at 1, get_self.
    now rewrite (bind_ok _ _ w w tt (validate_keys_ok _ _ Hall)).
Qed.

Lemma validate_parameter_types_by_name_only_witness :
  _validate_parameter_types [("f.id", PList [PStr "1"; PStr "2"])]
    (fresh json_client) = (inr tt, fresh json_client) /\
  (exists key,
      _validate_parameter_types [("f.id", PStr "1"); ("apikey", PStr "k")]
        (fresh json_client) = (inl (parameter_error key), fresh json_client)) /\
  resume (ext := scripted [] [] [])
    (get_resource_multiple "person" [("f.drucksache", PStr "1")])
    (fresh json_client) =
  multiple_loop (ext := scripted [] [] []) (base_url ++ "/" ++ "person")
    (dict_update (initial_params json_client) [("f.drucksache", PStr "1")])
    (fresh json_client).
Proof.
  destruct validate_parameter_types_by_name_only as [Hok [Hbad Hany]].
  split; [| split].
  - apply Hok. repeat constructor; simpl; tauto.
  - destruct (Hbad [("f.id", PStr "1"); ("apikey", PStr "k")] (fresh json_client))
      as [key [_ [_ [Heq _]]]].
    + apply Exists_cons_tl, Exists_cons_hd. simpl.
      intros H; repeat (destruct H as [H | H]; [discriminate H |]); exact H.
    + exists key. exact Heq.
  - apply (Hany (scripted [] [] [])).
    + simpl; tauto.
    + repeat constructor; simpl; tauto.
Defined.

(* ===================================================================== *)
(** ** The extractors *)
(* ===================================================================== *)

Lemma extract_cursor_json (response : pyobj) (w : World) :
  fformat (self w) = "json" ->
  _extract_cursor response w = obj_get response "cursor" w.
Proof. intros Hf. unfold _extract_cursor, bind, get_self. now rewrite Hf. Qed.

Lemma extract_cursor_markup (response : pyobj) (w : World) :
  fformat (self w) <> "json" ->
  _extract_cursor response w = obj_find_text response "cursor" w.
Proof.
  intros Hf. apply String.eqb_neq in Hf.
  unfold _extract_cursor, bind, get_self. now rewrite Hf.
Qed.

Lemma find_none_iff (name : string) (e : Element) :
  find name e = None <-> (forall c, In c (children e) -> tag c <> name).
Proof.
  unfold find. split.
  - intros Hnone c Hin Htag.
    apply (find_none _ _ Hnone) in Hin. apply String.eqb_neq in Hin.
    contradiction.
  - intros Hno. destruct (List.find _ (children e)) as [c |] eqn:Hf; [| reflexivity].
    apply find_some in Hf. destruct Hf as [Hin Htag].
    apply String.eqb_eq in Htag. now apply Hno in Hin.
Qed.

(** C4.  In json mode [_extract_cursor] returns the value of the [cursor]
    field of the decoded object, and [None] with no error when the field is
    absent.  In any other mode (xml) it returns the text of the first
    [cursor] child, and when the tree has no such child it raises (the
    attribute lookup on the missing child fails), the state unchanged. *)
Theorem extract_cursor_asymmetric :
  forall w : World,
    (fformat (self w) = "json" ->
     forall d : dict pyval,
       (forall v, dict_lookup "cursor" d = Some v ->
          _extract_cursor (Val (PDict d)) w = (inr v, w)) /\
       (dict_lookup "cursor" d = None ->
          _extract_cursor (Val (PDict d)) w = (inr PNone, w))) /\
    (fformat (self w) <> "json" ->
     forall e : Element,
       (forall c, find "cursor" e = Some c ->
          _extract_cursor (Elem e) w = (inr (text_value (text c)), w)) /\
       ((forall c, In c (children e) -> tag c <> "cursor") ->
          exists err,
            _extract_cursor (Elem e) w = (inl err, w) /\
            is_LookupError err = true)).
Proof.
  intros w. split.
  - intros Hf d. rewrite (extract_cursor_json _ _ Hf).
    unfold obj_get, py_get, ret. split.
    + now intros v ->.
    + now intros ->.
  - intros Hf e. rewrite (extract_cursor_markup _ _ Hf).
    unfold obj_find_text. split.
    + now intros c ->.
    + intros Hno. apply find_none_iff in Hno. rewrite Hno.
      exists AttributeError. split; reflexivity.
Qed.

Lemma extract_cursor_asymmetric_witness :
  _extract_cursor (Val page_X) (fresh json_client) =
    (inr (PStr "X"), fresh json_client) /\
  _extract_cursor (Val page_no_cursor) (fresh json_client) =
    (inr PNone, fresh json_client) /\
  _extract_cursor (Elem tree_X) (fresh xml_client) =
    (inr (PStr "X"), fresh xml_client) /\
  (exists err,
      _extract_cursor (Elem tree_no_cursor) (fresh xml_client) =
        (inl err, fresh xml_client) /\
      is_LookupError err = true).
Proof.
  destruct (extract_cursor_asymmetric (fresh json_client)) as [Hjson _].
  destruct (extract_cursor_asymmetric (fresh xml_client)) as [_ Hxml].
  split; [| split; [| split]].
  - apply (Hjson eq_refl). reflexivity.
  - apply (Hjson eq_refl). reflexivity.
  - assert (Hmode : fformat (self (fresh xml_client)) <> "json") by discriminate.
    apply (proj1 (Hxml Hmode tree_X) (mkElement "cursor" [] (Some "X") [])).
    reflexivity.
  - assert (Hmode : fformat (self (fresh xml_client)) <> "json") by discriminate.
    apply (proj2 (Hxml Hmode tree_no_cursor)).
    intros c [<- | []]. discriminate.
Defined.

(* ===================================================================== *)
(** ** One fetch *)
(* ===================================================================== *)

Section Fetch.
Context {ext : Collaborators}.

Lemma fetch_world (url : string) (params : dict pyval) (w : World) :
  world_of (_get_and_handle_response url params w) = logged url params w.
Proof.
  unfold _get_and_handle_response, bind, http_get, check_status, get_self,
    world_of, logged.
  destruct (requests_get _ _) as [e | r]; simpl; [reflexivity |].
  destruct (raise_for_status r); simpl; [reflexivity |].
  destruct (String.eqb _ _).
  - destruct (response_json r); reflexivity.
  - destruct (ET_fromstring _); reflexivity.
Qed.

Lemma fetch_result (url : string) (params : dict pyval) (w : World) :
  result_of (_get_and_handle_response url params w) =
  match requests_get (sent w) (mkRequest url params 5) with
  | inl e => inl (RequestException e)
  | inr r =>
      match raise_for_status r with
      | Some e => inl (HTTPError e)
      | None =>
          if String.eqb (fformat (self w)) "json" then
            match response_json r with
            | inl e => inl (JSONDecodeError e)
            | inr v => inr (Val v)
            end
          else
            match ET_fromstring (content r) with
            | inl e => inl (ParseError e)
            | inr t => inr (Elem t)
            end
      end
  end.
Proof.
  unfold _get_and_handle_response, bind, http_get, check_status, get_self,
    result_of.
  destruct (requests_get _ _) as [e | r]; simpl; [reflexivity |].
  destruct (raise_for_status r); simpl; [reflexivity |].
  destruct (String.eqb _ _).
  - destruct (response_json r); reflexivity.
  - destruct (ET_fromstring _); reflexivity.
Qed.

Lemma fetch_run (url : string) (params : dict pyval) (w : World) :
  _get_and_handle_response url params w =
  (result_of (_get_and_handle_response url params w), logged url params w).
Proof.
  rewrite <- fetch_world. unfold result_of, world_of.
  now destruct (_get_and_handle_response url params w).
Qed.

Lemma fetch_inv (url : string) (params : dict pyval) (w w1 : World)
  (r : exn + pyobj) :
  _get_and_handle_response url params w = (r, w1) -> w1 = logged url params w.
Proof. rewrite fetch_run. now intros [= _ <-]. Qed.

(** C8.  [_get_and_handle_response] issues one GET, with the url and
    parameters it was given and a timeout of 5: whatever the result, the
    log grows by exactly that request.  A network failure and an error
    status are raised as the transport reports them; otherwise the body
    is decoded as JSON in json mode and as an element tree in any other
    (xml) mode, and a parser failure is raised as a decode error. *)
Theorem get_and_handle_response_single_get :
  forall (url : string) (params : dict pyval) (w : World),
    let rq := {| req_url := url; req_params := params; req_timeout := 5 |} in
    let run := _get_and_handle_response url params w in
    world_of run = {| self := self w; sent := (sent w ++ [rq])%list |} /\
    (forall e, requests_get (sent w) rq = inl e ->
       result_of run = inl (RequestException e) /\
       is_TransportError (RequestException e) = true) /\
    (forall r e, requests_get (sent w) rq = inr r ->
       raise_for_status r = Some e ->
       result_of run = inl (HTTPError e) /\
       is_TransportError (HTTPError e) = true) /\
    (forall r, requests_get (sent w) rq = inr r ->
       raise_for_status r = None ->
       (fformat (self w) = "json" ->
          (forall v, response_json r = inr v -> result_of run = inr (Val v)) /\
          (forall e, response_json r = inl e ->
             result_of run = inl (JSONDecodeError e) /\
             is_DecodeError (JSONDecodeError e) = true)) /\
       (fformat (self w) <> "json" ->
          (forall t, ET_fromstring (content r) = inr t ->
             result_of run = inr (Elem t)) /\
          (forall e, ET_fromstring (content r) = inl e ->
             result_of run = inl (ParseError e) /\
             is_DecodeError (ParseError e) = true))).
Proof.
  intros url params w rq run. subst run.
  split; [apply fetch_world |].
  rewrite fetch_result. fold rq.
  split; [| split].
  - now intros e ->.
  - now intros r e -> ->.
  - intros r -> ->. split.
    + intros ->. simpl. split; [now intros v -> | now intros e ->].
    + intros Hf. apply String.eqb_neq in Hf. rewrite Hf.
      split; [now intros t -> | now intros e ->].
Qed.

Lemma bind_ret_r {A} (m : M A) (w : World) : bind m ret w = m w.
Proof. unfold bind, ret. now destruct (m w) as [[e | a] w']. Qed.

(** C6.  With a valid resource type [get_resource_id] issues exactly one
    request, a GET of base_url/res_type/dpi_id with the format and the key
    as only parameters and a timeout of 5, and returns the decoded
    response itself: the value [response.json()] gives in json mode, the
    tree [ET.fromstring] gives in any other mode.  There is no loop: the
    failure of the transport, of the status check or of the parser is
    raised as it is, after that same single request.  It is one call of
    [_get_and_handle_response] and nothing more. *)
Theorem get_resource_id_single_shot :
  forall (res_type dpi_id : string) (w : World),
    In res_type doctypes ->
    let url := base_url ++ "/" ++ res_type ++ "/" ++ dpi_id in
    let params := [("format", PStr (fformat (self w)));
                   ("apikey", PStr (apikey (self w)))] in
    let rq := {| req_url := url; req_params := params; req_timeout := 5 |} in
    get_resource_id res_type dpi_id w =
      (match requests_get (sent w) rq with
       | inl e => inl (RequestException e)
       | inr r =>
           match raise_for_status r with
           | Some e => inl (HTTPError e)
           | None =>
               if String.eqb (fformat (self w)) "json" then
                 match response_json r with
                 | inl e => inl (JSONDecodeError e)
                 | inr v => inr (Val v)
                 end
               else
                 match ET_fromstring (content r) with
                 | inl e => inl (ParseError e)
                 | inr t => inr (Elem t)
                 end
           end
       end,
       {| self := self w; sent := (sent w ++ [rq])%list |}) /\
    get_resource_id res_type dpi_id w = _get_and_handle_response url params w /\
    sent (world_of (get_resource_id res_type dpi_id w)) = (sent w ++ [rq])%list.
Proof.
  intros res_type dpi_id w Hres url params rq.
  assert (Hrun : get_resource_id res_type dpi_id w =
                 _get_and_handle_response url params w).
  { unfold get_resource_id.
    rewrite (bind_ok _ _ w w tt (validate_resource_type_ok _ _ Hres)).
    unfold bind at 1, get_self. apply bind_ret_r. }
  split; [| split].
  - rewrite Hrun, fetch_run, fetch_result. reflexivity.
  - exact Hrun.
  - rewrite Hrun, fetch_world. reflexivity.
Qed.
End Fetch.

Lemma get_and_handle_response_single_get_witness :
  let fetch script me :=
    _get_and_handle_response (ext := scripted script json_bodies xml_bodies)
      "u" [] (fresh me) in
  result_of (fetch [ok "body X"] json_client) = inr (Val page_X) /\
  world_of (fetch [ok "body X"] json_client) =
    {| self := json_client; sent := [mkRequest "u" [] 5] |} /\
  result_of (fetch [ok "not json"] json_client) =
    inl (JSONDecodeError "malformed") /\
  result_of (fetch [ok "tree X"] xml_client) = inr (Elem tree_X) /\
  result_of (fetch [ok "not xml"] xml_client) = inl (ParseError "malformed") /\
  result_of (fetch [inl "timed out"] json_client) =
    inl (RequestException "timed out") /\
  result_of (fetch [inr (mkResponse 503 "body X")] json_client) =
    inl (HTTPError "error status").
Proof.
  intros fetch.
  pose proof (fun script me =>
                get_and_handle_response_single_get
                  (ext := scripted script json_bodies xml_bodies)
                  "u" [] (fresh me)) as Spec.
  assert (Hxml : fformat (self (fresh xml_client)) <> "json") by discriminate.
  repeat (match goal with |- _ /\ _ => split end).
  - destruct (Spec [ok "body X"] json_client) as [_ [_ [_ Hdec]]].
    apply (proj1 (proj1 (Hdec (mkResponse 200 "body X") eq_refl eq_refl) eq_refl)).
    reflexivity.
  - destruct (Spec [ok "body X"] json_client) as [Hworld _]. exact Hworld.
  - destruct (Spec [ok "not json"] json_client) as [_ [_ [_ Hdec]]].
    apply (proj2 (proj1 (Hdec (mkResponse 200 "not json") eq_refl eq_refl) eq_refl)).
    reflexivity.
  - destruct (Spec [ok "tree X"] xml_client) as [_ [_ [_ Hdec]]].
    apply (proj1 (proj2 (Hdec (mkResponse 200 "tree X") eq_refl eq_refl) Hxml)).
    reflexivity.
  - destruct (Spec [ok "not xml"] xml_client) as [_ [_ [_ Hdec]]].
    apply (proj2 (proj2 (Hdec (mkResponse 200 "not xml") eq_refl eq_refl) Hxml)).
    reflexivity.
  - destruct (Spec [inl "timed out"] json_client) as [_ [Hnet _]].
    apply (Hnet "timed out"). reflexivity.
  - destruct (Spec [inr (mkResponse 503 "body X")] json_client)
      as [_ [_ [Hstatus _]]].
    apply (Hstatus (mkResponse 503 "body X") "error status"); reflexivity.
Defined.

Lemma get_resource_id_single_shot_witness :
  let url := "https://search.dip.bundestag.de/api/v1/person/12345" in
  let sent_by me :=
    {| self := me;
       sent := [mkRequest url [("format", PStr (fformat me));
                               ("apikey", PStr "key")] 5] |} in
  get_resource_id (ext := scripted [ok "body X"; ok "body Y"]
                            json_bodies xml_bodies)
    "person" "12345" (fresh json_client) =
    (inr (Val page_X), sent_by json_client) /\
  get_resource_id (ext := scripted [ok "tree X"] json_bodies xml_bodies)
    "person" "12345" (fresh xml_client) =
    (inr (Elem tree_X), sent_by xml_client) /\
  get_resource_id (ext := scripted [inr (mkResponse 404 "body X")]
                            json_bodies xml_bodies)
    "person" "12345" (fresh json_client) =
    (inl (HTTPError "error status"), sent_by json_client) /\
  get_resource_id (ext := scripted [ok "not json"] json_bodies xml_bodies)
    "person" "12345" (fresh json_client) =
    (inl (JSONDecodeError "malformed"), sent_by json_client).
Proof.
  intros url sent_by.
  assert (Hres : In "person" doctypes) by (simpl; tauto).
  pose proof (fun script me =>
                proj1 (get_resource_id_single_shot
                         (ext := scripted script json_bodies xml_bodies)
                         "person" "12345" (fresh me) Hres)) as Spec.
  repeat (match goal with |- _ /\ _ => split end).
  - rewrite (Spec [ok "body X"; ok "body Y"] json_client). reflexivity.
  - rewrite (Spec [ok "tree X"] xml_client). reflexivity.
  - rewrite (Spec [inr (mkResponse 404 "body X")] json_client). reflexivity.
  - rewrite (Spec [ok "not json"] json_client). reflexivity.
Defined.

(* ===================================================================== *)
(** ** The client object is only read *)
(* ===================================================================== *)

Create HintDb frame.

Lemma keeps_ret {A} (a : A) : keeps_self (ret a).
Proof. now intros w. Qed.

Lemma keeps_raise {A} (e : exn) : keeps_self (@raise A e).
Proof. now intros w. Qed.

Lemma keeps_get_self : keeps_self get_self.
Proof. now intros w. Qed.

Lemma keeps_bind {A B} (m : M A) (k : A -> M B) :
  keeps_self m -> (forall a, keeps_self (k a)) -> keeps_self (bind m k).
Proof.
  intros Hm Hk w. unfold bind, world_of in *.
  specialize (Hm w). destruct (m w) as [[e | a] w1]; simpl in *.
  - exact Hm.
  - rewrite <- Hm. apply Hk.
Qed.

Lemma keeps_if {A} (b : bool) (m1 m2 : M A) :
  keeps_self m1 -> keeps_self m2 -> keeps_self (if b then m1 else m2).
Proof. now destruct b. Qed.

#[local] Hint Resolve keeps_ret keeps_raise keeps_get_self keeps_if : frame.
#[local] Hint Extern 2 (keeps_self (bind _ _)) =>
  apply keeps_bind; [| intro] : frame.

Lemma keeps_validate_resource_type (resource : string) :
  keeps_self (_validate_resource_type resource).
Proof. unfold _validate_resource_type. auto with frame. Qed.

Lemma keeps_validate_keys (keys : list string) :
  keeps_self (validate_keys keys).
Proof. induction keys; cbn [validate_keys]; auto with frame. Qed.

Lemma keeps_obj_get (response : pyobj) (key : string) :
  keeps_self (obj_get response key).
Proof. destruct response as [[] |]; simpl; auto with frame. Qed.

Lemma keeps_obj_findall (response : pyobj) (name : string) :
  keeps_self (obj_findall response name).
Proof. destruct response; simpl; auto with frame. Qed.

Lemma keeps_obj_find_text (response : pyobj) (name : string) :
  keeps_self (obj_find_text response name).
Proof.
  destruct response as [| e]; simpl; auto with frame.
  destruct (find name e); auto with frame.
Qed.

#[local] Hint Resolve keeps_validate_resource_type keeps_validate_keys
  keeps_obj_get keeps_obj_findall keeps_obj_find_text : frame.

Lemma keeps_extract_documents (response : pyobj) :
  keeps_self (_extract_documents response).
Proof. unfold _extract_documents. auto 6 with frame. Qed.

Lemma keeps_extract_cursor (response : pyobj) :
  keeps_self (_extract_cursor response).
Proof. unfold _extract_cursor. auto with frame. Qed.

Lemma keeps_call1 {A} (f : pyobj -> M A) (args : list pyobj) :
  (forall a, keeps_self (f a)) -> keeps_self (call1 f args).
Proof.
  intros Hf. destruct args as [| a [| b rest]]; simpl; auto with frame.
Qed.

#[local] Hint Resolve keeps_extract_documents keeps_extract_cursor
  keeps_call1 : frame.

Section Frame.
Context {ext : Collaborators}.

Lemma keeps_fetch (url : string) (params : dict pyval) :
  keeps_self (_get_and_handle_response url params).
Proof. intros w. now rewrite fetch_world. Qed.

Hint Resolve keeps_fetch : frame.

Lemma keeps_get_resource_id (res_type dpi_id : string) :
  keeps_self (get_resource_id res_type dpi_id).
Proof. unfold get_resource_id. auto 8 with frame. Qed.

Lemma keeps_all_loop (url : string) (params : dict pyval) :
  keeps_self (all_loop url params).
Proof. unfold all_loop. auto 8 with frame. Qed.

Lemma keeps_multiple_loop (url : string) (params : dict pyval) :
  keeps_self (multiple_loop url params).
Proof. unfold multiple_loop. auto 8 with frame. Qed.

Hint Resolve keeps_all_loop keeps_multiple_loop : frame.

Lemma keeps_resume (g : generator) : keeps_self (resume g).
Proof.
  destruct g; cbn [resume]; unfold _validate_parameter_types;
    auto 8 with frame.
Qed.

Lemma keeps_next (g : generator) (w : World) :
  self (snd (next g w)) = self w.
Proof.
  unfold next. pose proof (keeps_resume g w) as H. unfold world_of in H.
  destruct (resume g w) as [[e | [[p |] g']] w']; exact H.
Qed.

Lemma keeps_drain (fuel : nat) :
  forall (g : generator) (w : World), self (snd (drain fuel g w)) = self w.
Proof.
  induction fuel as [| fuel IH]; intros g w; cbn [drain]; [reflexivity |].
  pose proof (keeps_next g w) as Hn.
  destruct (next g w) as [[[p | | e] g'] w']; simpl in Hn; try exact Hn.
  specialize (IH g' w').
  destruct (drain fuel g' w') as [[ps e] w'']; simpl in *. congruence.
Qed.
End Frame.

(** C9.  No operation of the client writes the client object: after each
    of the two validators, the two extractors, a fetch, [get_resource_id],
    any [next] on a generator of [get_resource_all] or
    [get_resource_multiple] in any of its states, and any number of such
    calls, [apikey] and [fformat] are what they were, whether the
    operation returned or raised. *)
Theorem client_configuration_unchanged :
  forall (ext : Collaborators) (w : World),
    let same (w' : World) :=
      apikey (self w') = apikey (self w) /\ fformat (self w') = fformat (self w) in
    (forall resource, same (world_of (_validate_resource_type resource w))) /\
    (forall params_arg, same (world_of (_validate_parameter_types params_arg w))) /\
    (forall response, same (world_of (_extract_documents response w))) /\
    (forall response, same (world_of (_extract_cursor response w))) /\
    (forall url params, same (world_of (_get_and_handle_response url params w))) /\
    (forall res_type dpi_id, same (world_of (get_resource_id res_type dpi_id w))) /\
    (forall g, same (snd (next g w))) /\
    (forall fuel g, same (snd (drain fuel g w))).
Proof.
  intros ext w same.
  assert (Hsame : forall w', self w' = self w -> same w').
  { intros w' H. unfold same. now rewrite H. }
  repeat (match goal with |- _ /\ _ => split end); intros; apply Hsame.
  - apply keeps_validate_resource_type.
  - apply keeps_validate_keys.
  - apply keeps_extract_documents.
  - apply keeps_extract_cursor.
  - apply keeps_fetch.
  - apply keeps_get_resource_id.
  - apply keeps_next.
  - apply keeps_drain.
Qed.

(* ===================================================================== *)
(** ** The generators *)
(* ===================================================================== *)

Lemma extract_cursor_world (response : pyobj) (w w' : World) (r : exn + pyval) :
  _extract_cursor response w = (r, w') -> w' = w.
Proof.
  unfold _extract_cursor, bind, get_self.
  destruct (String.eqb _ _).
  - destruct response as [[] |]; simpl; now intros [= _ <-].
  - destruct response as [| e]; simpl; [now intros [= _ <-] |].
    destruct (find _ e); now intros [= _ <-].
Qed.

(** When the cursor could be extracted, so can the documents. *)
Lemma extract_documents_after_cursor (response : pyobj) (w : World) (c : pyval) :
  _extract_cursor response w = (inr c, w) ->
  exists p, _extract_documents response w = (inr p, w).
Proof.
  unfold _extract_cursor, _extract_documents, bind, get_self, ret, raise.
  destruct (String.eqb _ _).
  - destruct response as [[] |]; simpl; intros H; try discriminate H; eauto.
  - destruct response as [| e]; simpl; intros H; try discriminate H; eauto.
Qed.

Section Generators.
Context {ext : Collaborators}.

Lemma next_closed (w : World) : next Closed w = (StopIteration, Closed, w).
Proof. reflexivity. Qed.

Lemma drain_closed (fuel : nat) (w : World) :
  exists e, drain fuel Closed w = ([], e, w).
Proof. destruct fuel; simpl; eauto. Qed.

Lemma resume_all_created (res_type : string) (w : World) :
  In res_type doctypes ->
  resume (get_resource_all res_type) w =
  all_loop (base_url ++ "/" ++ res_type) (initial_params (self w)) w.
Proof.
  intros Hres. unfold get_resource_all, resume.
  now rewrite (bind_ok _ _ w w tt (validate_resource_type_ok _ _ Hres)).
Qed.

Lemma resume_multiple_created (res_type : string) (params_arg : dict pyval)
  (w : World) :
  In res_type doctypes ->
  Forall (fun k => In k parameters) (dict_keys params_arg) ->
  resume (get_resource_multiple res_type params_arg) w =
  multiple_loop (base_url ++ "/" ++ res_type)
                (dict_update (initial_params (self w)) params_arg) w.
Proof.
  intros Hres Hall. unfold get_resource_multiple, resume.
  rewrite (bind_ok _ _ w w tt (validate_resource_type_ok _ _ Hres)).
  unfold bind at 1, get_self.
  now rewrite (bind_ok _ _ w w tt (validate_keys_ok _ _ Hall)).
Qed.

Lemma resume_bad_resource (g : generator) (res_type : string) (w : World) :
  ~ In res_type doctypes ->
  (g = get_resource_all res_type \/
   exists params_arg, g = get_resource_multiple res_type params_arg) ->
  resume g w = (inl (doctype_error res_type), w).
Proof.
  intros Hbad [-> | [params_arg ->]];
    unfold get_resource_all, get_resource_multiple, resume;
    now rewrite (bind_raise _ _ w w _ (validate_resource_type_raises _ _ Hbad)).
Qed.

Lemma resume_bad_key (res_type key : string) (params_arg : dict pyval)
  (w : World) :
  In res_type doctypes ->
  first_invalid (dict_keys params_arg) = Some key ->
  resume (get_resource_multiple res_type params_arg) w =
  (inl (parameter_error key), w).
Proof.
  intros Hres Hkey. unfold get_resource_multiple, resume.
  rewrite (bind_ok _ _ w w tt (validate_resource_type_ok _ _ Hres)).
  unfold bind at 1, get_self.
  now rewrite (bind_raise _ _ w w _ (validate_keys_raises _ _ _ Hkey)).
Qed.

Lemma next_raise (g : generator) (w w' : World) (e : exn) :
  resume g w = (inl e, w') -> next g w = (Raise e, Closed, w').
Proof. unfold next. now intros ->. Qed.

Lemma drain_raise (g : generator) (w w' : World) (e : exn) (fuel : nat) :
  resume g w = (inl e, w') -> drain (S fuel) g w = ([], Failed e, w').
Proof. intros H. cbn [drain]. now rewrite (next_raise _ _ _ _ H). Qed.

(** C5.  When the resource type is outside the allow-list,
    [get_resource_id] and the first [next] on the generators of
    [get_resource_all] and [get_resource_multiple] raise [ValueError]
    and leave the state, hence the log of requests, as it was; so does
    the first [next] of [get_resource_multiple] when a parameter name is
    outside its allow-list.  The generator is finished by the error, and
    a loop over it ends there with nothing sent. *)
Theorem validation_failure_sends_nothing :
  forall w : World,
    (forall res_type dpi_id,
        ~ In res_type doctypes ->
        get_resource_id res_type dpi_id w = (inl (doctype_error res_type), w)) /\
    (forall res_type fuel,
        ~ In res_type doctypes ->
        next (get_resource_all res_type) w =
          (Raise (doctype_error res_type), Closed, w) /\
        drain (S fuel) (get_resource_all res_type) w =
          ([], Failed (doctype_error res_type), w)) /\
    (forall res_type params_arg fuel,
        ~ In res_type doctypes ->
        next (get_resource_multiple res_type params_arg) w =
          (Raise (doctype_error res_type), Closed, w) /\
        drain (S fuel) (get_resource_multiple res_type params_arg) w =
          ([], Failed (doctype_error res_type), w)) /\
    (forall res_type params_arg fuel,
        In res_type doctypes ->
        Exists (fun k => ~ In k parameters) (dict_keys params_arg) ->
        exists key,
          ~ In key parameters /\
          next (get_resource_multiple res_type params_arg) w =
            (Raise (parameter_error key), Closed, w) /\
          drain (S fuel) (get_resource_multiple res_type params_arg) w =
            ([], Failed (parameter_error key), w)).
Proof.
  intros w. split; [| split; [| split]].
  - intros res_type dpi_id Hbad. unfold get_resource_id.
    now rewrite (bind_raise _ _ w w _ (validate_resource_type_raises _ _ Hbad)).
  - intros res_type fuel Hbad.
    assert (H : resume (get_resource_all res_type) w =
                (inl (doctype_error res_type), w))
      by (apply resume_bad_resource; auto).
    split; [now apply next_raise | now apply drain_raise].
  - intros res_type params_arg fuel Hbad.
    assert (H : resume (get_resource_multiple res_type params_arg) w =
                (inl (doctype_error res_type), w))
      by (apply resume_bad_resource; eauto).
    split; [now apply next_raise | now apply drain_raise].
  - intros res_type params_arg fuel Hres Hex.
    destruct (first_invalid_exists _ Hex) as [key [Hfirst [_ Hkey]]].
    pose proof (resume_bad_key _ _ _ w Hres Hfirst) as H.
    exists key. split; [exact Hkey |].
    split; [now apply next_raise | now apply drain_raise].
Qed.

(** In [get_resource_all] the cursor is extracted by a call without its
    argument: a turn of the loop ends in the failure of the fetch or in
    [TypeError]. *)
Lemma all_loop_run (url : string) (params : dict pyval) (w : World) :
  all_loop url params w =
  (match result_of (_get_and_handle_response url params w) with
   | inl e => inl e
   | inr _ => inl TypeError
   end, logged url params w).
Proof.
  unfold all_loop, bind at 1. rewrite fetch_run. simpl.
  now destruct (result_of _).
Qed.

Lemma get_resource_all_never_yields (res_type : string) (w : World) :
  exists e w', next (get_resource_all res_type) w = (Raise e, Closed, w').
Proof.
  destruct (in_dec string_dec res_type doctypes) as [Hres | Hbad].
  - exists (match result_of (_get_and_handle_response
                             (base_url ++ "/" ++ res_type)
                             (initial_params (self w)) w) with
            | inl e => e
            | inr _ => TypeError
            end), (logged (base_url ++ "/" ++ res_type)
                          (initial_params (self w)) w).
    apply next_raise. rewrite (resume_all_created _ _ Hres), all_loop_run.
    now destruct (result_of _).
  - exists (doctype_error res_type), w.
    apply next_raise, resume_bad_resource; auto.
Qed.
End Generators.

Lemma validation_failure_sends_nothing_witness :
  let ext := scripted [ok "body X"] json_bodies xml_bodies in
  let w := fresh json_client in
  get_resource_id "vorgaenge" "1" w = (inl (doctype_error "vorgaenge"), w) /\
  next (get_resource_all "vorgaenge") w =
    (Raise (doctype_error "vorgaenge"), Closed, w) /\
  next (get_resource_multiple "vorgaenge" []) w =
    (Raise (doctype_error "vorgaenge"), Closed, w) /\
  (exists key,
      next (get_resource_multiple "person" [("apikey", PStr "other")]) w =
        (Raise (parameter_error key), Closed, w)).
Proof.
  intros ext w.
  destruct (validation_failure_sends_nothing (ext := ext) w)
    as [Hid [Hall [Hmul Hkey]]].
  assert (Hbad : ~ In "vorgaenge" doctypes).
  { simpl. intros H; repeat (destruct H as [H | H]; [discriminate H |]); exact H. }
  split; [| split; [| split]].
  - apply Hid, Hbad.
  - apply (Hall "vorgaenge" 0%nat Hbad).
  - apply (Hmul "vorgaenge" [] 0%nat Hbad).
  - destruct (Hkey "person" [("apikey", PStr "other")] 0%nat) as [key [_ [Hn _]]].
    + simpl; tauto.
    + apply Exists_cons_hd. simpl.
      intros H; repeat (destruct H as [H | H]; [discriminate H |]); exact H.
    + exists key. exact Hn.
Defined.

(** C1 (the code departs from it).  The claim wants the first page yielded
    when the first response decodes and carries a cursor.  The loop of
    [get_resource_all] calls [_extract_cursor] without the response, so
    the call itself fails: here the server answers the one request with a
    page carrying cursor X, the fetch decodes it, and [next] raises
    [TypeError]; a loop over the generator gets no page.  No generator of
    [get_resource_all] ever yields, whatever the server and the state. *)
Theorem get_resource_all_raises_TypeError :
  let ext := scripted [ok "body X"; ok "body X"] json_bodies xml_bodies in
  let w := fresh json_client in
  let rq := {| req_url := "https://search.dip.bundestag.de/api/v1/person";
               req_params := [("format", PStr "json"); ("apikey", PStr "key")];
               req_timeout := 5 |} in
  _get_and_handle_response (req_url rq) (req_params rq) w =
    (inr (Val page_X), {| self := json_client; sent := [rq] |}) /\
  _extract_cursor (Val page_X) w = (inr (PStr "X"), w) /\
  next (get_resource_all "person") w =
    (Raise TypeError, Closed, {| self := json_client; sent := [rq] |}) /\
  drain 10 (get_resource_all "person") w =
    ([], Failed TypeError, {| self := json_client; sent := [rq] |}) /\
  (forall (ext' : Collaborators) (res_type : string) (w0 : World),
      exists e w', next (ext := ext') (get_resource_all res_type) w0 =
                   (Raise e, Closed, w')).
Proof.
  intros ext w rq. repeat split.
  intros ext' res_type w0. apply get_resource_all_never_yields.
Qed.

Section Pagination.
Context {ext : Collaborators}.

(** A turn of the loop of [get_resource_multiple] once the fetch and the
    extraction of the cursor have succeeded. *)
Lemma multiple_loop_run (url : string) (params : dict pyval) (w w1 : World)
  (r : pyobj) (c : pyval) :
  _get_and_handle_response url params w = (inr r, w1) ->
  _extract_cursor r w1 = (inr c, w1) ->
  multiple_loop url params w =
  (if py_ne (py_get params "cursor") c then
     bind (_extract_documents r)
          (fun docs => ret (Some docs,
                            MultipleSuspended url (dict_set "cursor" c params)))
   else ret (None, Closed)) w1.
Proof.
  intros Hfetch Hcursor. unfold multiple_loop.
  rewrite (bind_ok _ _ _ _ _ Hfetch). cbn [call1].
  now rewrite (bind_ok _ _ _ _ _ Hcursor).
Qed.

Lemma multiple_loop_stops (url : string) (params : dict pyval) (w w1 : World)
  (r : pyobj) (c : pyval) :
  _get_and_handle_response url params w = (inr r, w1) ->
  _extract_cursor r w1 = (inr c, w1) ->
  py_eq (py_get params "cursor") c = true ->
  multiple_loop url params w = (inr (None, Closed), w1).
Proof.
  intros Hfetch Hcursor Heq.
  rewrite (multiple_loop_run _ _ _ _ _ _ Hfetch Hcursor).
  unfold py_ne. now rewrite Heq.
Qed.

Lemma multiple_loop_yields (url : string) (params : dict pyval) (w w1 : World)
  (r : pyobj) (c : pyval) :
  _get_and_handle_response url params w = (inr r, w1) ->
  _extract_cursor r w1 = (inr c, w1) ->
  py_eq (py_get params "cursor") c = false ->
  exists p,
    _extract_documents r w1 = (inr p, w1) /\
    multiple_loop url params w =
    (inr (Some p, MultipleSuspended url (dict_set "cursor" c params)), w1).
Proof.
  intros Hfetch Hcursor Hne.
  destruct (extract_documents_after_cursor _ _ _ Hcursor) as [p Hdocs].
  exists p. split; [exact Hdocs |].
  rewrite (multiple_loop_run _ _ _ _ _ _ Hfetch Hcursor).
  unfold py_ne. rewrite Hne. cbn [negb].
  now rewrite (bind_ok _ _ _ _ _ Hdocs).
Qed.

(** C3.  Take a generator of [get_resource_multiple] about to run a turn
    of its loop on [url] and [params], a fetch that succeeds and a
    cursor [c] that can be extracted.  If [c] equals the cursor in
    [params], [next] ends the iteration and yields nothing.  If it
    differs, [next] yields the page of this response and the generator
    is suspended with the cursor in its parameters set to [c].  Hence
    when the following fetch extracts a cursor equal to [c], the
    generator produces no page after this turn: the following [next]
    ends the iteration. *)
Theorem multiple_cursor_rule :
  forall (g : generator) (url : string) (params : dict pyval)
         (w w1 : World) (r : pyobj) (c : pyval),
    resume g w = multiple_loop url params w ->
    _get_and_handle_response url params w = (inr r, w1) ->
    _extract_cursor r w1 = (inr c, w1) ->
    (py_eq (py_get params "cursor") c = true ->
       next g w = (StopIteration, Closed, w1)) /\
    (py_eq (py_get params "cursor") c = false ->
       exists p,
         _extract_documents r w1 = (inr p, w1) /\
         next g w =
           (Yield p, MultipleSuspended url (dict_set "cursor" c params), w1) /\
         py_get (dict_set "cursor" c params) "cursor" = c) /\
    (forall (r2 : pyobj) (c2 : pyval) (w2 : World),
        _get_and_handle_response url (dict_set "cursor" c params) w1 =
          (inr r2, w2) ->
        _extract_cursor r2 w2 = (inr c2, w2) ->
        py_eq c c2 = true ->
        let g1 := snd (fst (next g w)) in
        (exists w', next g1 w1 = (StopIteration, Closed, w')) /\
        (forall fuel, fst (fst (drain fuel g1 w1)) = [])).
Proof.
  intros g url params w w1 r c Hloop Hfetch Hcursor.
  assert (Hstop : py_eq (py_get params "cursor") c = true ->
                  next g w = (StopIteration, Closed, w1)).
  { intros Heq. unfold next.
    now rewrite Hloop, (multiple_loop_stops _ _ _ _ _ _ Hfetch Hcursor Heq). }
  assert (Hyield : py_eq (py_get params "cursor") c = false ->
                   exists p,
                     _extract_documents r w1 = (inr p, w1) /\
                     next g w =
                       (Yield p,
                        MultipleSuspended url (dict_set "cursor" c params), w1)).
  { intros Hne.
    destruct (multiple_loop_yields _ _ _ _ _ _ Hfetch Hcursor Hne)
      as [p [Hdocs Hrun]].
    exists p. split; [exact Hdocs |]. unfold next. now rewrite Hloop, Hrun. }
  split; [exact Hstop | split].
  - intros Hne. destruct (Hyield Hne) as [p [Hdocs Hnext]].
    exists p. repeat split; try assumption. apply py_get_set_same.
  - intros r2 c2 w2 Hfetch2 Hcursor2 Hsame g1. subst g1.
    destruct (py_eq (py_get params "cursor") c) eqn:Hcmp.
    + rewrite (Hstop eq_refl). cbn [fst snd]. split.
      * exists w1. apply next_closed.
      * intros fuel. now destruct (drain_closed fuel w1) as [e ->].
    + destruct (Hyield eq_refl) as [p [_ Hnext]]. rewrite Hnext. cbn [fst snd].
      assert (Hend : next (MultipleSuspended url (dict_set "cursor" c params)) w1
                     = (StopIteration, Closed, w2)).
      { unfold next. cbn [resume].
        rewrite (multiple_loop_stops _ _ _ _ _ _ Hfetch2 Hcursor2); [reflexivity |].
        now rewrite py_get_set_same. }
      split; [now exists w2 |].
      intros [| fuel]; [reflexivity |]. cbn [drain]. now rewrite Hend.
Qed.

(** C10.  In json mode, with a valid resource type and allowed parameter
    names none of which is [cursor], when the first response decodes to
    an object without a [cursor] field, the first [next] on the generator
    of [get_resource_multiple] ends the iteration: no page, no error,
    one request sent, whatever the [documents] of that response. *)
Theorem multiple_first_response_without_cursor :
  forall (res_type : string) (params_arg : dict pyval) (w w1 : World)
         (d : dict pyval),
    fformat (self w) = "json" ->
    In res_type doctypes ->
    Forall (fun k => In k parameters) (dict_keys params_arg) ->
    dict_lookup "cursor" params_arg = None ->
    _get_and_handle_response (base_url ++ "/" ++ res_type)
      (dict_update (initial_params (self w)) params_arg) w =
      (inr (Val (PDict d)), w1) ->
    dict_lookup "cursor" d = None ->
    next (get_resource_multiple res_type params_arg) w =
      (StopIteration, Closed, w1) /\
    (forall fuel,
        drain (S fuel) (get_resource_multiple res_type params_arg) w =
          ([], Exhausted, w1)) /\
    List.length (sent w1) = S (List.length (sent w)).
Proof.
  intros res_type params_arg w w1 d Hmode Hres Hall Hnocursor Hfetch Hfield.
  pose proof (fetch_inv _ _ _ _ _ Hfetch) as Hw1.
  assert (Hmode1 : fformat (self w1) = "json") by (now subst w1).
  assert (Hcursor : _extract_cursor (Val (PDict d)) w1 = (inr PNone, w1)).
  { rewrite (extract_cursor_json _ _ Hmode1). unfold obj_get, py_get.
    now rewrite Hfield. }
  assert (Hunset : py_get (dict_update (initial_params (self w)) params_arg)
                          "cursor" = PNone).
  { unfold py_get. now rewrite (dict_lookup_update_absent _ _ _ Hnocursor). }
  assert (Hnext : next (get_resource_multiple res_type params_arg) w =
                  (StopIteration, Closed, w1)).
  { unfold next. rewrite (resume_multiple_created _ _ _ Hres Hall).
    rewrite (multiple_loop_stops _ _ _ _ _ _ Hfetch Hcursor); [reflexivity |].
    now rewrite Hunset. }
  split; [exact Hnext | split].
  - intros fuel. cbn [drain]. now rewrite Hnext.
  - subst w1. simpl. rewrite length_app. simpl. lia.
Qed.
End Pagination.

Lemma multiple_cursor_rule_witness :
  let ext := scripted [ok "body X"; ok "body X"] json_bodies xml_bodies in
  let w := fresh json_client in
  let g := get_resource_multiple "person" [] in
  let url := "https://search.dip.bundestag.de/api/v1/person" in
  let params := [("format", PStr "json"); ("apikey", PStr "key")] in
  let params1 := (params ++ [("cursor", PStr "X")])%list in
  let w1 := logged url params w in
  let w2 := logged url params1 w1 in
  next g w =
    (Yield (PageVal (PList [PDict [("id", PStr "1")]])),
     MultipleSuspended url params1, w1) /\
  next (MultipleSuspended url params1) w1 = (StopIteration, Closed, w2) /\
  (forall fuel, fst (fst (drain fuel (snd (fst (next g w))) w1)) = []).
Proof.
  intros ext w g url params params1 w1 w2.
  destruct (multiple_cursor_rule (ext := ext) g url params w w1 (Val page_X)
              (PStr "X") eq_refl eq_refl eq_refl) as [_ [Hyield Hence]].
  destruct (multiple_cursor_rule (ext := ext) (MultipleSuspended url params1)
              url params1 w1 w2 (Val page_X) (PStr "X")
              eq_refl eq_refl eq_refl) as [Hstop _].
  split; [| split].
  - destruct (Hyield eq_refl) as [p [Hdocs [Hnext _]]].
    rewrite Hnext. now injection Hdocs as <-.
  - apply Hstop. reflexivity.
  - apply (Hence (Val page_X) (PStr "X") w2); reflexivity.
Defined.

Lemma multiple_first_response_without_cursor_witness :
  let ext := scripted [ok "body without cursor"] json_bodies xml_bodies in
  let w := fresh json_client in
  let g := get_resource_multiple "drucksache"
             [("f.id", PList [PStr "1"; PStr "2"])] in
  let rq := {| req_url := "https://search.dip.bundestag.de/api/v1/drucksache";
               req_params := [("format", PStr "json"); ("apikey", PStr "key");
                              ("f.id", PList [PStr "1"; PStr "2"])];
               req_timeout := 5 |} in
  let w1 := {| self := json_client; sent := [rq] |} in
  result_of (_extract_documents (Val page_no_cursor) w1) =
    inr (PageVal (PList [PDict [("id", PStr "7")]])) /\
  next g w = (StopIteration, Closed, w1) /\
  drain 3 g w = ([], Exhausted, w1).
Proof.
  intros ext w g rq w1.
  destruct (multiple_first_response_without_cursor (ext := ext) "drucksache"
              [("f.id", PList [PStr "1"; PStr "2"])] w w1
              [("documents", PList [PDict [("id", PStr "7")]])])
    as [Hnext [Hdrain _]].
  - reflexivity.
  - simpl; tauto.
  - repeat constructor; simpl; tauto.
  - reflexivity.
  - reflexivity.
  - reflexivity.
  - split; [reflexivity | split; [exact Hnext | apply Hdrain]].
Defined.

(* ===================================================================== *)
(** ** Runs against the scripted server *)
(* ===================================================================== *)

(** Cursors X, Y, Y: two pages, then the end, after three requests. *)
Example multiple_two_pages :
  let ext := scripted [ok "body X"; ok "body Y"; ok "body Y"; ok "body X"]
               json_bodies xml_bodies in
  match drain 10 (get_resource_multiple "person" []) (fresh json_client) with
  | (pages, e, w) =>
      pages = [PageVal (PList [PDict [("id", PStr "1")]]);
               PageVal (PList [PDict [("id", PStr "2")]])] /\
      e = Exhausted /\
      map (fun rq => py_get (req_params rq) "cursor") (sent w) =
        [PNone; PStr "X"; PStr "Y"]
  end.
Proof. repeat split. Qed.

(** In xml mode the page is the list of the [document] children. *)
Example multiple_markup_page :
  let ext := scripted [ok "tree X"; ok "tree X"] json_bodies xml_bodies in
  fst (drain 10 (get_resource_multiple "person" []) (fresh xml_client)) =
    ([PageElems [doc_element; doc_element]], Exhausted).
Proof. reflexivity. Qed.

(** In xml mode a first response without a cursor element ends the loop
    with an error, after one request. *)
Example multiple_markup_no_cursor :
  let ext := scripted [ok "tree without cursor"] json_bodies xml_bodies in
  match drain 10 (get_resource_multiple "person" []) (fresh xml_client) with
  | (pages, e, w) =>
      pages = [] /\ e = Failed AttributeError /\ List.length (sent w) = 1%nat
  end.
Proof. repeat split. Qed.

(** A failing fetch ends the sequence after the pages yielded so far. *)
Example multiple_transport_failure :
  let ext := scripted [ok "body X"; inl "timed out"; ok "body Y"]
               json_bodies xml_bodies in
  fst (drain 10 (get_resource_multiple "person" []) (fresh json_client)) =
    ([PageVal (PList [PDict [("id", PStr "1")]])],
     Failed (RequestException "timed out")).
Proof. reflexivity. Qed.

(** A list value goes out as given, under its one key. *)
Example multiple_repeated_parameter :
  let ext := scripted [] json_bodies xml_bodies in
  map req_params
    (sent (snd (next (get_resource_multiple "drucksache"
                        [("f.id", PList [PStr "1"; PStr "2"])])
                     (fresh json_client)))) =
    [[("format", PStr "json"); ("apikey", PStr "key");
      ("f.id", PList [PStr "1"; PStr "2"])]].
Proof. reflexivity. Qed.

(** An error status is raised by the fetch in [get_resource_id]. *)
Example get_resource_id_error_status :
  let ext := scripted [inr {| status_code := 404; content := "" |}]
               json_bodies xml_bodies in
  result_of (get_resource_id "person" "12345" (fresh json_client)) =
    inl (HTTPError "error status").
Proof. reflexivity. Qed.

(* ===================================================================== *)
(** ** Further properties: validators and extractors *)
(* ===================================================================== *)

Lemma extract_documents_world (response : pyobj) (w w' : World)
  (r : exn + page) :
  _extract_documents response w = (r, w') -> w' = w.
Proof.
  unfold _extract_documents, bind, get_self, ret, raise.
  destruct (String.eqb _ _).
  - destruct response as [[] |]; simpl; now intros [= _ <-].
  - destruct response as [| e]; simpl; now intros [= _ <-].
Qed.

Lemma validate_keys_world (keys : list string) (w : World) :
  world_of (validate_keys keys w) = w.
Proof.
  induction keys as [| k rest IH]; cbn [validate_keys]; [reflexivity |].
  now destruct (negb (str_in k parameters)).
Qed.

(** X1.  The validators and the extractors are pure: whether they return
    or raise, the state after them, the log of requests included, is the
    state before. *)
Theorem validators_and_extractors_send_nothing :
  forall w : World,
    (forall resource, world_of (_validate_resource_type resource w) = w) /\
    (forall params_arg, world_of (_validate_parameter_types params_arg w) = w) /\
    (forall response, world_of (_extract_documents response w) = w) /\
    (forall response, world_of (_extract_cursor response w) = w).
Proof.
  intros w. repeat split.
  - intros resource. unfold _validate_resource_type.
    now destruct (negb (str_in resource doctypes)).
  - intros params_arg. apply validate_keys_world.
  - intros response. unfold world_of.
    destruct (_extract_documents response w) as [r w'] eqn:H.
    exact (extract_documents_world _ _ _ _ H).
  - intros response. unfold world_of.
    destruct (_extract_cursor response w) as [r w'] eqn:H.
    exact (extract_cursor_world _ _ _ _ H).
Qed.

(** X2.  [_validate_resource_type] returns for exactly seven tokens, the
    sixth being the two literals joined, and raises [ValueError] with the
    message naming the token for every other string. *)
Theorem validate_resource_type_accepts_exactly :
  forall (resource : string) (w : World),
    let accepted := ["aktivitaet"; "drucksache"; "drucksache-text"; "person";
                     "plenarprotokoll"; "plenarprotokoll-textvorgang";
                     "vorgangsposition"] in
    (In resource accepted -> _validate_resource_type resource w = (inr tt, w)) /\
    (~ In resource accepted ->
     _validate_resource_type resource w =
       (inl (ValueError ("Invalid doctype '" ++ resource ++
                         "'. Expected one of: ['aktivitaet', 'drucksache', 'drucksache-text', 'person', 'plenarprotokoll', 'plenarprotokoll-textvorgang', 'vorgangsposition']")),
        w)).
Proof.
  intros resource w accepted. split.
  - apply validate_resource_type_ok.
  - intros Hout. now rewrite (validate_resource_type_raises _ _ Hout).
Qed.

Lemma validate_resource_type_accepts_exactly_witness :
  _validate_resource_type "vorgangsposition" (fresh json_client) =
    (inr tt, fresh json_client) /\
  _validate_resource_type "Person" (fresh json_client) =
    (inl (ValueError "Invalid doctype 'Person'. Expected one of: ['aktivitaet', 'drucksache', 'drucksache-text', 'person', 'plenarprotokoll', 'plenarprotokoll-textvorgang', 'vorgangsposition']"),
     fresh json_client).
Proof.
  split.
  - apply (validate_resource_type_accepts_exactly "vorgangsposition").
    simpl; tauto.
  - apply (validate_resource_type_accepts_exactly "Person" (fresh json_client)).
    simpl. intros H; repeat (destruct H as [H | H]; [discriminate H |]); exact H.
Defined.

Lemma extract_documents_json (response : pyobj) (w : World) :
  fformat (self w) = "json" ->
  _extract_documents response w =
  bind (obj_get response "documents") (fun v => ret (PageVal v)) w.
Proof. intros Hf. unfold _extract_documents, bind at 1, get_self. now rewrite Hf. Qed.

Lemma extract_documents_markup (response : pyobj) (w : World) :
  fformat (self w) <> "json" ->
  _extract_documents response w =
  bind (obj_findall response "document") (fun es => ret (PageElems es)) w.
Proof.
  intros Hf. apply String.eqb_neq in Hf.
  unfold _extract_documents, bind at 1, get_self. now rewrite Hf.
Qed.

(** X3.  What [_extract_documents] does is decided by the mode and by
    what the response is, and it never changes the state.  In json mode,
    on an object it returns the [documents] field, [None] when the field
    is absent, and on any other decoded JSON value (a list, a string, a
    number, null) it raises [AttributeError].  In any other mode, on a
    tree it returns the direct children tagged [document], all of them and
    only them, in the order of the tree, an empty list when there is none
    (a missing page is no error, where a missing cursor element is); on a
    decoded JSON value it raises [AttributeError]. *)
Theorem extract_documents_total :
  forall w : World,
    (fformat (self w) = "json" ->
     (forall d : dict pyval,
         _extract_documents (Val (PDict d)) w =
           (inr (PageVal (match dict_lookup "documents" d with
                          | Some v => v
                          | None => PNone
                          end)), w)) /\
     (forall v : pyval,
         is_object v = false ->
         _extract_documents (Val v) w = (inl AttributeError, w))) /\
    (fformat (self w) <> "json" ->
     (forall e : Element,
         _extract_documents (Elem e) w =
           (inr (PageElems
                   (filter (fun c => String.eqb (tag c) "document")
                           (children e))), w)) /\
     (forall e : Element,
         (forall c, In c (children e) -> tag c <> "document") ->
         _extract_documents (Elem e) w = (inr (PageElems []), w)) /\
     (forall v : pyval,
         _extract_documents (Val v) w = (inl AttributeError, w))).
Proof.
  intros w. split.
  - intros Hf. split.
    + intros d. now rewrite (extract_documents_json _ _ Hf).
    + intros v Hobj. rewrite (extract_documents_json _ _ Hf).
      destruct v; try reflexivity. discriminate Hobj.
  - intros Hf. split; [| split].
    + intros e. now rewrite (extract_documents_markup _ _ Hf).
    + intros e Hno. rewrite (extract_documents_markup _ _ Hf).
      unfold obj_findall, findall, bind, ret.
      replace (filter (fun c => String.eqb (tag c) "document") (children e))
        with (@nil Element); [reflexivity |].
      symmetry. induction (children e) as [| c rest IH]; [reflexivity |].
      simpl. destruct (String.eqb_spec (tag c) "document") as [Htag | _].
      * destruct (Hno c (or_introl eq_refl) Htag).
      * apply IH. intros c' Hin. apply Hno. now right.
    + intros v. now rewrite (extract_documents_markup _ _ Hf).
Qed.

Lemma extract_documents_total_witness :
  let doc (name : string) := mkElement "document" [] (Some name) [] in
  _extract_documents (Val page_X) (fresh json_client) =
    (inr (PageVal (PList [PDict [("id", PStr "1")]])), fresh json_client) /\
  _extract_documents (Val (PDict [("cursor", PStr "X")])) (fresh json_client) =
    (inr (PageVal PNone), fresh json_client) /\
  _extract_documents (Val (PList [page_X])) (fresh json_client) =
    (inl AttributeError, fresh json_client) /\
  _extract_documents
    (Elem (mkElement "root" [] None
             [doc "a"; mkElement "cursor" [] (Some "X") []; doc "b";
              mkElement "other" [] None [doc "nested"]; doc "c"]))
    (fresh xml_client) =
    (inr (PageElems [doc "a"; doc "b"; doc "c"]), fresh xml_client) /\
  _extract_documents (Elem (mkElement "root" [] None [])) (fresh xml_client) =
    (inr (PageElems []), fresh xml_client).
Proof.
  intros doc.
  destruct (extract_documents_total (fresh json_client)) as [Hjson _].
  destruct (extract_documents_total (fresh xml_client)) as [_ Hxml].
  destruct (Hjson eq_refl) as [Hobject Hother].
  assert (Hmode : fformat (self (fresh xml_client)) <> "json") by discriminate.
  destruct (Hxml Hmode) as [Htree [Hnone _]].
  repeat (match goal with |- _ /\ _ => split end).
  - unfold page_X. rewrite Hobject. reflexivity.
  - rewrite Hobject. reflexivity.
  - apply Hother. reflexivity.
  - rewrite Htree. reflexivity.
  - apply Hnone. intros c [].
Defined.

(* ===================================================================== *)
(** ** Further properties: the generators *)
(* ===================================================================== *)

Section GeneratorFacts.
Context {ext : Collaborators}.

(** X4.  With a valid resource type the generator of [get_resource_all]
    sends exactly one request, to base_url/res_type with the format and
    the key, and raises: the error of the fetch when the fetch failed,
    [TypeError] when it succeeded.  A loop over it gets no page. *)
Theorem get_resource_all_one_request_then_raises :
  forall (res_type : string) (w : World),
    In res_type doctypes ->
    let url := base_url ++ "/" ++ res_type in
    let params := [("format", PStr (fformat (self w)));
                   ("apikey", PStr (apikey (self w)))] in
    let w1 := {| self := self w;
                 sent := (sent w ++ [{| req_url := url; req_params := params;
                                        req_timeout := 5 |}])%list |} in
    exists e,
      next (get_resource_all res_type) w = (Raise e, Closed, w1) /\
      (forall fuel,
          drain (S fuel) (get_resource_all res_type) w = ([], Failed e, w1)) /\
      (forall r, result_of (_get_and_handle_response url params w) = inr r ->
                 e = TypeError) /\
      (forall e', result_of (_get_and_handle_response url params w) = inl e' ->
                  e = e').
Proof.
  intros res_type w Hres url params w1.
  pose proof (resume_all_created _ w Hres) as Hrun.
  rewrite all_loop_run in Hrun. fold url in Hrun.
  change (initial_params (self w)) with params in Hrun.
  change (logged url params w) with w1 in Hrun.
  destruct (result_of (_get_and_handle_response url params w)) as [e | r].
  - exists e. repeat split.
    + now apply next_raise.
    + intros fuel. now apply drain_raise.
    + discriminate.
    + now intros e' [= ->].
  - exists TypeError. repeat split.
    + now apply next_raise.
    + intros fuel. now apply drain_raise.
    + discriminate.
Qed.

(** The three ways a turn of the loop of [get_resource_multiple] goes; in
    each the one request of the turn has been logged. *)
Lemma multiple_loop_cases (url : string) (params : dict pyval) (w : World) :
  (exists e, multiple_loop url params w = (inl e, logged url params w)) \/
  multiple_loop url params w = (inr (None, Closed), logged url params w) \/
  (exists p c,
      multiple_loop url params w =
      (inr (Some p, MultipleSuspended url (dict_set "cursor" c params)),
       logged url params w)).
Proof.
  remember (multiple_loop url params w) as run eqn:Hrun.
  unfold multiple_loop in Hrun. unfold bind at 1 in Hrun.
  rewrite fetch_run in Hrun.
  destruct (result_of (_get_and_handle_response url params w)) as [e | r];
    [left; eauto |].
  cbn [call1] in Hrun. unfold bind at 1 in Hrun.
  destruct (_extract_cursor r (logged url params w)) as [[e | c] w2] eqn:Hc;
    apply extract_cursor_world in Hc; subst w2; [left; eauto |].
  destruct (py_ne (py_get params "cursor") c);
    [| right; left; exact Hrun].
  unfold bind, ret in Hrun.
  destruct (_extract_documents r (logged url params w)) as [[e | p] w2] eqn:Hd;
    apply extract_documents_world in Hd; subst w2; [left; eauto |].
  right; right. eauto.
Qed.

(** A loop depends on its generator through the first [next] only. *)
Lemma drain_resume (g1 g2 : generator) (w : World) (fuel : nat) :
  resume g1 w = resume g2 w -> drain fuel g1 w = drain fuel g2 w.
Proof.
  intros H. destruct fuel; [reflexivity |]. cbn [drain]. unfold next.
  now rewrite H.
Qed.

Lemma same_query_set_cursor (url : string) (params : dict pyval) (c : pyval)
  (rq : Request) :
  same_query url (dict_set "cursor" c params) rq -> same_query url params rq.
Proof.
  intros [Hurl [Htime Hkeys]]. repeat split; try assumption.
  intros k Hk. rewrite (Hkeys k Hk), dict_lookup_set.
  now destruct (String.eqb_spec k "cursor").
Qed.

Lemma drain_suspended (fuel : nat) :
  forall (url : string) (params : dict pyval) (w w' : World)
         (pages : list page) (e : ending),
    drain fuel (MultipleSuspended url params) w = (pages, e, w') ->
    exists rqs,
      sent w' = (sent w ++ rqs)%list /\
      List.length rqs = (List.length pages + closing_requests e)%nat /\
      Forall (same_query url params) rqs.
Proof.
  induction fuel as [| fuel IH]; intros url params w w' pages e Hrun.
  - injection Hrun as <- <- <-. exists []. rewrite app_nil_r. now repeat split.
  - cbn [drain] in Hrun. unfold next in Hrun. cbn [resume] in Hrun.
    set (rq := {| req_url := url; req_params := params; req_timeout := 5 |}).
    assert (Hrq : same_query url params rq) by (now repeat split).
    destruct (multiple_loop_cases url params w)
      as [[err Hl] | [Hl | [p [c Hl]]]]; rewrite Hl in Hrun.
    + injection Hrun as <- <- <-. exists [rq]. repeat split. now constructor.
    + injection Hrun as <- <- <-. exists [rq]. repeat split. now constructor.
    + destruct (drain fuel _ (logged url params w)) as [[ps e0] w0] eqn:Hrest.
      injection Hrun as <- <- <-.
      destruct (IH _ _ _ _ _ _ Hrest) as [rqs [Hsent [Hlen Hall]]].
      exists (rq :: rqs). repeat split.
      * rewrite Hsent. unfold logged. cbn [sent]. now rewrite <- app_assoc.
      * simpl. now rewrite Hlen.
      * constructor; [exact Hrq |].
        eapply Forall_impl; [| exact Hall].
        intros rq0. apply same_query_set_cursor.
Qed.

(** X6.  Request accounting of [get_resource_multiple].  For a generator
    about to run a turn of its loop, a [for] loop over it sends one
    request per page it gets and, when it ends (exhausted, or by an error
    of a fetch or of an extraction), one more, whose response gives no
    page. *)
Theorem multiple_one_request_per_page_and_one_more :
  forall (g : generator) (url : string) (params : dict pyval) (w w' : World)
         (fuel : nat) (pages : list page) (e : ending),
    resume g w = multiple_loop url params w ->
    drain fuel g w = (pages, e, w') ->
    List.length (sent w') =
    (List.length (sent w) + List.length pages + closing_requests e)%nat.
Proof.
  intros g url params w w' fuel pages e Hloop Hrun.
  rewrite (drain_resume g (MultipleSuspended url params)) in Hrun
    by exact Hloop.
  destruct (drain_suspended _ _ _ _ _ _ _ Hrun) as [rqs [Hsent [Hlen _]]].
  rewrite Hsent, length_app, Hlen. lia.
Qed.

(** X7.  Every request of one pagination of [get_resource_multiple] goes
    to the same url with timeout 5, and carries for every parameter name
    other than [cursor] what the first request carried: only the cursor
    changes from page to page, and nothing is sent but these requests. *)
Theorem multiple_requests_differ_in_cursor_only :
  forall (g : generator) (url : string) (params : dict pyval) (w w' : World)
         (fuel : nat) (pages : list page) (e : ending),
    resume g w = multiple_loop url params w ->
    drain fuel g w = (pages, e, w') ->
    exists rqs,
      sent w' = (sent w ++ rqs)%list /\
      Forall (fun rq =>
                req_url rq = url /\ req_timeout rq = 5%Z /\
                forall k, k <> "cursor" ->
                          dict_lookup k (req_params rq) = dict_lookup k params)
             rqs.
Proof.
  intros g url params w w' fuel pages e Hloop Hrun.
  rewrite (drain_resume g (MultipleSuspended url params)) in Hrun
    by exact Hloop.
  destruct (drain_suspended _ _ _ _ _ _ _ Hrun) as [rqs [Hsent [_ Hall]]].
  exists rqs. split; [exact Hsent | exact Hall].
Qed.
End GeneratorFacts.

Lemma multiple_one_request_per_page_and_one_more_witness :
  let ext := scripted [ok "body X"; ok "body Y"; ok "body Y"]
               json_bodies xml_bodies in
  exists pages w',
    drain 10 (get_resource_multiple "person" []) (fresh json_client) =
      (pages, Exhausted, w') /\
    List.length pages = 2%nat /\
    List.length (sent w') = 3%nat.
Proof.
  intros ext.
  destruct (drain 10 (get_resource_multiple "person" []) (fresh json_client))
    as [[pages e] w'] eqn:Hrun.
  pose proof (multiple_one_request_per_page_and_one_more (ext := ext)
                (get_resource_multiple "person" [])
                "https://search.dip.bundestag.de/api/v1/person"
                [("format", PStr "json"); ("apikey", PStr "key")]
                (fresh json_client) w' 10 pages e eq_refl Hrun) as Hcount.
  vm_compute in Hrun. injection Hrun as <- <- <-.
  eexists _, _. split; [reflexivity | split; [reflexivity | exact Hcount]].
Defined.

Lemma multiple_requests_differ_in_cursor_only_witness :
  let ext := scripted [ok "body X"; ok "body Y"; ok "body Y"]
               json_bodies xml_bodies in
  let w' := snd (drain 10 (get_resource_multiple "drucksache"
                             [("f.id", PList [PStr "1"; PStr "2"])])
                       (fresh json_client)) in
  exists rqs,
    sent w' = rqs /\
    Forall (fun rq =>
              req_url rq = "https://search.dip.bundestag.de/api/v1/drucksache" /\
              dict_lookup "f.id" (req_params rq) =
                Some (PList [PStr "1"; PStr "2"])) rqs.
Proof.
  intros ext w'.
  destruct (drain 10 (get_resource_multiple "drucksache"
                        [("f.id", PList [PStr "1"; PStr "2"])])
                  (fresh json_client)) as [[pages e] w0] eqn:Hrun.
  destruct (multiple_requests_differ_in_cursor_only (ext := ext)
              (get_resource_multiple "drucksache"
                 [("f.id", PList [PStr "1"; PStr "2"])])
              "https://search.dip.bundestag.de/api/v1/drucksache"
              [("format", PStr "json"); ("apikey", PStr "key");
               ("f.id", PList [PStr "1"; PStr "2"])]
              (fresh json_client) w0 10 pages e eq_refl Hrun)
    as [rqs [Hsent Hall]].
  exists rqs. split; [exact Hsent |].
  eapply Forall_impl; [| exact Hall].
  intros rq [Hurl [_ Hkeys]]. split; [exact Hurl |].
  rewrite (Hkeys "f.id"); [reflexivity | discriminate].
Defined.

(* ===================================================================== *)
(** ** Further properties: what the requests carry *)
(* ===================================================================== *)

Section DictUpdate.
Context {V : Type}.
Implicit Types (d other : dict V) (k : string) (v : V).

Lemma dict_lookup_absent_key k d :
  ~ In k (dict_keys d) -> dict_lookup k d = None.
Proof.
  induction d as [| [k0 v0] rest IH]; simpl; [reflexivity |].
  intros Hout. destruct (String.eqb_spec k k0) as [-> | Hne].
  - destruct Hout. now left.
  - apply IH. intros Hin. apply Hout. now right.
Qed.

Lemma dict_lookup_update_present k v d other :
  NoDup (dict_keys other) ->
  dict_lookup k other = Some v ->
  dict_lookup k (dict_update d other) = Some v.
Proof.
  unfold dict_update. revert d.
  induction other as [| [k0 v0] rest IH]; intros d Hnodup Hin; simpl in *.
  - discriminate.
  - inversion Hnodup as [| ? ? Hfresh Hrest]; subst.
    destruct (String.eqb_spec k k0) as [-> | Hne].
    + injection Hin as ->.
      pose proof (dict_lookup_update_absent k0 (dict_set k0 v d) rest
                    (dict_lookup_absent_key _ _ Hfresh)) as Habs.
      unfold dict_update in Habs. rewrite Habs. apply dict_lookup_set_same.
    + now apply IH.
Qed.
End DictUpdate.

Lemma allowed_keys_exclude_apikey (params_arg : dict pyval) :
  Forall (fun k => In k parameters) (dict_keys params_arg) ->
  dict_lookup "apikey" params_arg = None.
Proof.
  intros Hall. apply dict_lookup_absent_key. intros Hin.
  rewrite Forall_forall in Hall. apply Hall in Hin. simpl in Hin.
  repeat (destruct Hin as [Hin | Hin]; [discriminate Hin |]). exact Hin.
Qed.

Section RequestFacts.
Context {ext : Collaborators}.

Lemma next_multiple_world (g : generator) (url : string) (params : dict pyval)
  (w : World) :
  resume g w = multiple_loop url params w ->
  snd (next g w) = logged url params w.
Proof.
  intros Hloop. unfold next. rewrite Hloop.
  now destruct (multiple_loop_cases url params w)
    as [[err ->] | [-> | [p [c ->]]]].
Qed.

(** X8.  With a valid resource type and allowed, distinct parameter names,
    every request a loop over [get_resource_multiple] sends goes to
    base_url/res_type and carries the key of the client (no allowed name
    can replace it) and each parameter of the caller other than [cursor]
    with the value the caller gave, a list value included. *)
Theorem multiple_requests_carry_key_and_filters :
  forall (res_type : string) (params_arg : dict pyval) (w w' : World)
         (fuel : nat) (pages : list page) (e : ending),
    In res_type doctypes ->
    Forall (fun k => In k parameters) (dict_keys params_arg) ->
    NoDup (dict_keys params_arg) ->
    drain fuel (get_resource_multiple res_type params_arg) w = (pages, e, w') ->
    exists rqs,
      sent w' = (sent w ++ rqs)%list /\
      Forall (fun rq =>
                req_url rq = base_url ++ "/" ++ res_type /\
                dict_lookup "apikey" (req_params rq) =
                  Some (PStr (apikey (self w))) /\
                forall k v, k <> "cursor" ->
                            dict_lookup k params_arg = Some v ->
                            dict_lookup k (req_params rq) = Some v)
             rqs.
Proof.
  intros res_type params_arg w w' fuel pages e Hres Hall Hnodup Hrun.
  rewrite (drain_resume _ (MultipleSuspended (base_url ++ "/" ++ res_type)
                             (dict_update (initial_params (self w)) params_arg)))
    in Hrun by (now apply resume_multiple_created).
  destruct (drain_suspended _ _ _ _ _ _ _ Hrun) as [rqs [Hsent [_ Hsame]]].
  exists rqs. split; [exact Hsent |].
  eapply Forall_impl; [| exact Hsame].
  intros rq [Hurl [_ Hkeys]]. split; [exact Hurl | split].
  - rewrite Hkeys by discriminate.
    now rewrite (dict_lookup_update_absent _ _ _
                   (allowed_keys_exclude_apikey _ Hall)).
  - intros k v Hk Hv. rewrite (Hkeys k Hk).
    now apply dict_lookup_update_present.
Qed.

(** X9.  A [format] given by the caller replaces the client's in the
    request and nowhere else: the first request carries the caller's
    value, and the body is still decoded by the client's own format, so a
    json client raises the JSON decode error on a body that is not JSON
    whatever format it asked for. *)
Theorem multiple_format_override_is_sent_not_used :
  forall (res_type : string) (params_arg : dict pyval) (w : World) (v : pyval),
    In res_type doctypes ->
    Forall (fun k => In k parameters) (dict_keys params_arg) ->
    NoDup (dict_keys params_arg) ->
    dict_lookup "format" params_arg = Some v ->
    fformat (self w) = "json" ->
    exists rq,
      sent (snd (next (get_resource_multiple res_type params_arg) w)) =
        (sent w ++ [rq])%list /\
      dict_lookup "format" (req_params rq) = Some v /\
      (forall r err,
          requests_get (sent w) rq = inr r ->
          raise_for_status r = None ->
          response_json r = inl err ->
          fst (next (get_resource_multiple res_type params_arg) w) =
            (Raise (JSONDecodeError err), Closed)).
Proof.
  intros res_type params_arg w v Hres Hall Hnodup Hformat Hmode.
  set (url := base_url ++ "/" ++ res_type).
  set (params := dict_update (initial_params (self w)) params_arg).
  pose proof (resume_multiple_created _ _ w Hres Hall) as Hloop.
  fold url params in Hloop.
  exists {| req_url := url; req_params := params; req_timeout := 5 |}.
  split; [| split].
  - now rewrite (next_multiple_world _ _ _ _ Hloop).
  - now apply dict_lookup_update_present.
  - intros r err Hget Hstatus Hjson.
    assert (Hfetch : _get_and_handle_response url params w =
                     (inl (JSONDecodeError err), logged url params w)).
    { rewrite fetch_run, fetch_result, Hget, Hstatus, Hmode. simpl.
      now rewrite Hjson. }
    unfold next. rewrite Hloop. unfold multiple_loop.
    now rewrite (bind_raise _ _ _ _ _ Hfetch).
Qed.

(** X10.  A turn of the loop of [get_resource_multiple] whose fetch
    succeeds with a response that has no place for a cursor (in json mode
    a JSON value that is not an object; in any other mode a tree without a
    [cursor] child) raises [AttributeError] and finishes the generator
    with no page, after the one request of the fetch. *)
Theorem multiple_response_without_cursor_place_raises :
  forall (g : generator) (url : string) (params : dict pyval) (w w1 : World)
         (r : pyobj),
    resume g w = multiple_loop url params w ->
    _get_and_handle_response url params w = (inr r, w1) ->
    (fformat (self w) = "json" /\
     exists v, r = Val v /\ is_object v = false) \/
    (fformat (self w) <> "json" /\
     exists t, r = Elem t /\ forall c, In c (children t) -> tag c <> "cursor") ->
    next g w = (Raise AttributeError, Closed, w1) /\
    sent w1 = (sent w ++ [{| req_url := url; req_params := params;
                             req_timeout := 5 |}])%list.
Proof.
  intros g url params w w1 r Hloop Hfetch Hcase.
  pose proof (fetch_inv _ _ _ _ _ Hfetch) as Hw1.
  assert (Hself : self w1 = self w) by (now subst w1).
  split; [| now subst w1].
  assert (Hcursor : _extract_cursor r w1 = (inl AttributeError, w1)).
  { destruct Hcase as [[Hmode [v [-> Hobj]]] | [Hmode [t [-> Hno]]]];
      rewrite <- Hself in Hmode.
    - rewrite (extract_cursor_json _ _ Hmode).
      destruct v; try reflexivity. discriminate Hobj.
    - rewrite (extract_cursor_markup _ _ Hmode). unfold obj_find_text.
      apply find_none_iff in Hno. now rewrite Hno. }
  unfold next. rewrite Hloop. unfold multiple_loop.
  rewrite (bind_ok _ _ _ _ _ Hfetch). cbn [call1].
  now rewrite (bind_raise _ _ _ _ _ Hcursor).
Qed.

(** X11.  A cursor that is there and empty ends the iteration like a
    missing one.  When the outgoing parameters have no cursor and the
    response carries a null [cursor] field (json mode) or a [cursor]
    element without text (any other mode), [next] gives [StopIteration]:
    the page of that response is not yielded and nothing is raised. *)
Theorem multiple_null_cursor_stops :
  forall (g : generator) (url : string) (params : dict pyval) (w w1 : World)
         (r : pyobj),
    resume g w = multiple_loop url params w ->
    _get_and_handle_response url params w = (inr r, w1) ->
    dict_lookup "cursor" params = None ->
    (fformat (self w) = "json" /\
     exists d, r = Val (PDict d) /\ dict_lookup "cursor" d = Some PNone) \/
    (fformat (self w) <> "json" /\
     exists t c, r = Elem t /\ find "cursor" t = Some c /\ text c = None) ->
    next g w = (StopIteration, Closed, w1).
Proof.
  intros g url params w w1 r Hloop Hfetch Hunset Hcase.
  pose proof (fetch_inv _ _ _ _ _ Hfetch) as Hw1.
  assert (Hself : self w1 = self w) by (now subst w1).
  assert (Hcursor : _extract_cursor r w1 = (inr PNone, w1)).
  { destruct Hcase as [[Hmode [d [-> Hnull]]] | [Hmode [t [c [-> [Hfind Htext]]]]]];
      rewrite <- Hself in Hmode.
    - rewrite (extract_cursor_json _ _ Hmode). unfold obj_get, py_get.
      now rewrite Hnull.
    - rewrite (extract_cursor_markup _ _ Hmode). unfold obj_find_text.
      now rewrite Hfind, Htext. }
  unfold next. rewrite Hloop.
  rewrite (multiple_loop_stops _ _ _ _ _ _ Hfetch Hcursor); [reflexivity |].
  unfold py_get. now rewrite Hunset.
Qed.

(** X12.  A fetch that fails in a turn of the loop of
    [get_resource_multiple] ends the sequence: [next] raises the error of
    the fetch as it is, the generator is finished, and a loop that had
    got a page before the failing turn keeps it. *)
Theorem multiple_fetch_failure_ends_sequence :
  forall (g : generator) (url : string) (params : dict pyval) (w w1 : World)
         (err : exn),
    resume g w = multiple_loop url params w ->
    _get_and_handle_response url params w = (inl err, w1) ->
    next g w = (Raise err, Closed, w1) /\
    (forall fuel, drain (S fuel) g w = ([], Failed err, w1)) /\
    (forall g0 w0 p fuel,
        next g0 w0 = (Yield p, g, w) ->
        drain (S (S fuel)) g0 w0 = ([p], Failed err, w1)).
Proof.
  intros g url params w w1 err Hloop Hfetch.
  assert (Hrun : resume g w = (inl err, w1)).
  { rewrite Hloop. unfold multiple_loop.
    now rewrite (bind_raise _ _ _ _ _ Hfetch). }
  split; [now apply next_raise | split].
  - intros fuel. now apply drain_raise.
  - intros g0 w0 p fuel Hyield.
    change (drain (S (S fuel)) g0 w0) with
      (match next g0 w0 with
       | (Yield p, g', w') =>
           match drain (S fuel) g' w' with
           | (ps, e, w'') => (p :: ps, e, w'')
           end
       | (StopIteration, _, w') => ([], Exhausted, w')
       | (Raise e, _, w') => ([], Failed e, w')
       end).
    now rewrite Hyield, (drain_raise _ _ _ _ fuel Hrun).
Qed.
End RequestFacts.

Lemma get_resource_all_one_request_then_raises_witness :
  let ext := scripted [ok "body X"] json_bodies xml_bodies in
  exists w1,
    next (get_resource_all "drucksache") (fresh json_client) =
      (Raise TypeError, Closed, w1) /\
    List.length (sent w1) = 1%nat.
Proof.
  intros ext.
  destruct (get_resource_all_one_request_then_raises (ext := ext) "drucksache"
              (fresh json_client)) as [e [Hnext [_ [Hok _]]]].
  - simpl; tauto.
  - rewrite (Hok (Val page_X) eq_refl) in Hnext.
    eexists. split; [exact Hnext | reflexivity].
Defined.

Lemma multiple_requests_carry_key_and_filters_witness :
  let ext := scripted [ok "body X"; ok "body Y"; ok "body Y"]
               json_bodies xml_bodies in
  let w' := snd (drain 10 (get_resource_multiple "drucksache"
                             [("f.id", PList [PStr "1"; PStr "2"]);
                              ("f.datum.start", PStr "2021-01-01")])
                       (fresh json_client)) in
  List.length (sent w') = 3%nat /\
  Forall (fun rq =>
            dict_lookup "apikey" (req_params rq) = Some (PStr "key") /\
            dict_lookup "f.id" (req_params rq) =
              Some (PList [PStr "1"; PStr "2"]))
         (sent w').
Proof.
  intros ext w'. split; [reflexivity |].
  destruct (drain 10 (get_resource_multiple "drucksache"
                        [("f.id", PList [PStr "1"; PStr "2"]);
                         ("f.datum.start", PStr "2021-01-01")])
                  (fresh json_client)) as [[pages e] w0] eqn:Hrun.
  destruct (multiple_requests_carry_key_and_filters (ext := ext) "drucksache"
              [("f.id", PList [PStr "1"; PStr "2"]);
               ("f.datum.start", PStr "2021-01-01")]
              (fresh json_client) w0 10 pages e) as [rqs [Hsent Hall]].
  - simpl; tauto.
  - repeat constructor; simpl; tauto.
  - repeat constructor; simpl; intuition discriminate.
  - exact Hrun.
  - subst w'. cbn [snd]. rewrite Hsent. cbn [fresh sent app].
    eapply Forall_impl; [| exact Hall].
    intros rq [_ [Hkey Hfilters]]. split; [exact Hkey |].
    apply Hfilters; [discriminate | reflexivity].
Defined.

Lemma multiple_format_override_is_sent_not_used_witness :
  let ext := scripted [ok "tree X"] json_bodies xml_bodies in
  let g := get_resource_multiple "person" [("format", PStr "xml")] in
  map (fun rq => dict_lookup "format" (req_params rq))
      (sent (snd (next g (fresh json_client)))) = [Some (PStr "xml")] /\
  fst (next g (fresh json_client)) = (Raise (JSONDecodeError "malformed"), Closed).
Proof.
  intros ext g.
  destruct (multiple_format_override_is_sent_not_used (ext := ext) "person"
              [("format", PStr "xml")] (fresh json_client) (PStr "xml"))
    as [rq [Hsent [Hformat Hdecode]]].
  - simpl; tauto.
  - repeat constructor; simpl; tauto.
  - repeat constructor; simpl; tauto.
  - reflexivity.
  - reflexivity.
  - split.
    + fold g in Hsent. rewrite Hsent. cbn [fresh sent app map].
      now rewrite Hformat.
    + apply (Hdecode (mkResponse 200 "tree X") "malformed"); reflexivity.
Defined.

Lemma multiple_response_without_cursor_place_raises_witness :
  let url := "https://search.dip.bundestag.de/api/v1/person" in
  (let ext := scripted [ok "a list"] [("a list", PList [PStr "doc"])] [] in
   let params := [("format", PStr "json"); ("apikey", PStr "key")] in
   next (get_resource_multiple "person" []) (fresh json_client) =
     (Raise AttributeError, Closed, logged url params (fresh json_client))) /\
  (let ext := scripted [ok "tree without cursor"] json_bodies xml_bodies in
   let params := [("format", PStr "xml"); ("apikey", PStr "key")] in
   next (get_resource_multiple "person" []) (fresh xml_client) =
     (Raise AttributeError, Closed, logged url params (fresh xml_client))).
Proof.
  intros url. split; intros ext params.
  - apply (multiple_response_without_cursor_place_raises (ext := ext)
             (get_resource_multiple "person" []) url params
             (fresh json_client) _ (Val (PList [PStr "doc"])) eq_refl eq_refl).
    left. split; [reflexivity |]. now exists (PList [PStr "doc"]).
  - apply (multiple_response_without_cursor_place_raises (ext := ext)
             (get_resource_multiple "person" []) url params
             (fresh xml_client) _ (Elem tree_no_cursor) eq_refl eq_refl).
    right. split; [discriminate |]. exists tree_no_cursor.
    split; [reflexivity |]. intros c [<- | []]. discriminate.
Defined.

Lemma multiple_null_cursor_stops_witness :
  let url := "https://search.dip.bundestag.de/api/v1/person" in
  (let ext := scripted [ok "null cursor"]
                [("null cursor",
                  PDict [("documents", PList [PStr "doc"]); ("cursor", PNone)])]
                [] in
   let params := [("format", PStr "json"); ("apikey", PStr "key")] in
   next (get_resource_multiple "person" []) (fresh json_client) =
     (StopIteration, Closed, logged url params (fresh json_client))) /\
  (let ext := scripted [ok "empty cursor"] []
                [("empty cursor",
                  mkElement "root" [] None
                    [doc_element; mkElement "cursor" [] None []])] in
   let params := [("format", PStr "xml"); ("apikey", PStr "key")] in
   next (get_resource_multiple "person" []) (fresh xml_client) =
     (StopIteration, Closed, logged url params (fresh xml_client))).
Proof.
  intros url. split; intros ext params.
  - apply (multiple_null_cursor_stops (ext := ext)
             (get_resource_multiple "person" []) url params
             (fresh json_client) _
             (Val (PDict [("documents", PList [PStr "doc"]); ("cursor", PNone)]))
             eq_refl eq_refl eq_refl).
    left. split; [reflexivity |]. eexists. split; reflexivity.
  - apply (multiple_null_cursor_stops (ext := ext)
             (get_resource_multiple "person" []) url params
             (fresh xml_client) _
             (Elem (mkElement "root" [] None
                      [doc_element; mkElement "cursor" [] None []]))
             eq_refl eq_refl eq_refl).
    right. split; [discriminate |].
    eexists _, (mkElement "cursor" [] None []). repeat split.
Defined.

Lemma multiple_fetch_failure_ends_sequence_witness :
  let ext := scripted [ok "body X"; inl "timed out"; ok "body Y"]
               json_bodies xml_bodies in
  let url := "https://search.dip.bundestag.de/api/v1/person" in
  let params := [("format", PStr "json"); ("apikey", PStr "key")] in
  let params1 := (params ++ [("cursor", PStr "X")])%list in
  let w1 := logged url params (fresh json_client) in
  let w2 := logged url params1 w1 in
  next (MultipleSuspended url params1) w1 =
    (Raise (RequestException "timed out"), Closed, w2) /\
  drain 5 (get_resource_multiple "person" []) (fresh json_client) =
    ([PageVal (PList [PDict [("id", PStr "1")]])],
     Failed (RequestException "timed out"), w2).
Proof.
  intros ext url params params1 w1 w2.
  destruct (multiple_fetch_failure_ends_sequence (ext := ext)
              (MultipleSuspended url params1) url params1 w1 w2
              (RequestException "timed out") eq_refl eq_refl)
    as [Hnext [_ Hkeep]].
  split; [exact Hnext |].
  apply (Hkeep (get_resource_multiple "person" []) (fresh json_client)).
  reflexivity.
Defined.

(* ===================================================================== *)
(** ** Further properties: no bound on the pages *)
(* ===================================================================== *)

Lemma append_one_differs (s : string) : String.eqb s (s ++ "x") = false.
Proof.
  apply String.eqb_neq. induction s as [| a s IH]; simpl.
  - discriminate.
  - intros [= H]. now apply IH.
Qed.

Lemma restless_changes_cursor (v : pyval) :
  py_eq v (PStr (match v with PStr s => s ++ "x" | _ => "x" end)) = false.
Proof. destruct v; try reflexivity. simpl. apply append_one_differs. Qed.

(** X13.  The loop of [get_resource_multiple] has no bound of its own: it
    goes on for as long as the server answers with a cursor that differs
    from the one it was sent.  Against a server that always does, a json
    client gets a page at every [next]: after any number of calls the
    generator has yielded that many pages, sent that many requests, and
    is not finished. *)
Theorem multiple_goes_on_while_cursor_changes :
  forall ext : Collaborators,
    (forall before rq,
        exists r d c,
          requests_get before rq = inr r /\
          raise_for_status r = None /\
          response_json r = inr (PDict d) /\
          dict_lookup "cursor" d = Some c /\
          py_eq (py_get (req_params rq) "cursor") c = false) ->
    forall (fuel : nat) (g : generator) (url : string) (params : dict pyval)
           (w : World),
      fformat (self w) = "json" ->
      resume g w = multiple_loop url params w ->
      exists pages w',
        drain fuel g w = (pages, Unfinished, w') /\
        List.length pages = fuel /\
        List.length (sent w') = (List.length (sent w) + fuel)%nat.
Proof.
  intros ext Hserver fuel g url params w Hmode Hloop.
  rewrite (drain_resume g (MultipleSuspended url params)) by exact Hloop.
  clear g Hloop. revert params w Hmode.
  induction fuel as [| fuel IH]; intros params w Hmode.
  - exists [], w. repeat split. simpl. lia.
  - destruct (Hserver (sent w) (mkRequest url params 5))
      as [r [d [c [Hget [Hstatus [Hjson [Hfield Hdiff]]]]]]].
    set (w1 := logged url params w).
    assert (Hfetch : _get_and_handle_response url params w =
                     (inr (Val (PDict d)), w1)).
    { rewrite fetch_run, fetch_result, Hget, Hstatus, Hmode. simpl.
      now rewrite Hjson. }
    assert (Hmode1 : fformat (self w1) = "json") by exact Hmode.
    assert (Hcursor : _extract_cursor (Val (PDict d)) w1 = (inr c, w1)).
    { rewrite (extract_cursor_json _ _ Hmode1). unfold obj_get, py_get.
      now rewrite Hfield. }
    cbn [req_params] in Hdiff.
    destruct (multiple_loop_yields _ _ _ _ _ _ Hfetch Hcursor Hdiff)
      as [p [_ Hrun]].
    destruct (IH (dict_set "cursor" c params) w1 Hmode1)
      as [pages [w' [Hrest [Hlen Hsent]]]].
    exists (p :: pages), w'. split; [| split].
    + cbn [drain]. unfold next. cbn [resume]. now rewrite Hrun, Hrest.
    + simpl. now rewrite Hlen.
    + rewrite Hsent. unfold w1, logged. cbn [sent].
      rewrite length_app. simpl. lia.
Qed.

Lemma multiple_goes_on_while_cursor_changes_witness :
  exists pages w',
    drain (ext := restless) 25 (get_resource_multiple "person" [])
      (fresh json_client) = (pages, Unfinished, w') /\
    List.length pages = 25%nat /\
    List.length (sent w') = 25%nat.
Proof.
  apply (multiple_goes_on_while_cursor_changes restless) with
    (url := "https://search.dip.bundestag.de/api/v1/person")
    (params := [("format", PStr "json"); ("apikey", PStr "key")]).
  - intros before rq. eexists _, _, _. repeat split.
    apply restless_changes_cursor.
  - reflexivity.
  - reflexivity.
Defined.

(* ===================================================================== *)
(** ** Further properties: a cursor given by the caller *)
(* ===================================================================== *)

Section CallerCursor.
Context {ext : Collaborators}.

End CallerCursor.

